(** * Raft-trip booking: the booking routes and the components they drive

    A shallow embedding of [routes/booking_routes.py] (the handlers
    [get_settings], [book] and [availability]) together with models of the
    modules the handlers import but whose code is not part of the sources
    at hand (the raft ledger, the allocation engine, the amount calculator
    and the booking ledger).

    Conventions.
    - Python integers are [Z].
    - A [datetime.date] is its proleptic Gregorian ordinal ([date.toordinal]),
      a [Z]; comparison of dates is comparison of ordinals and
      [d + timedelta(days=n)] is [d + n].  The range limits of
      [datetime.date] (years 1..9999) are checked when a string is parsed,
      not when days are added.
    - Strings are byte strings: [int] and [strptime] are modelled on ASCII
      input.
    - [dict.get(k)] on a settings document is an [option]-valued field;
      [d[k]] raises [KeyError] when the field is absent.
    - [request.form] is a finite map from field names to values. *)

From Stdlib Require Import ZArith QArith Ascii String List Lia.
From stdpp Require Import base option list strings sorting gmap fin_maps.

Local Open Scope string_scope.
Local Open Scope Z_scope.

(** ** Python builtins used by the handlers *)

Definition is_digit (a : ascii) : bool :=
  ((48 <=? nat_of_ascii a) && (nat_of_ascii a <=? 57))%nat.

Definition digit_val (a : ascii) : Z := Z.of_nat (nat_of_ascii a) - 48.

Definition digit_in (lo hi : Z) (a : ascii) : bool :=
  is_digit a && (lo <=? digit_val a) && (digit_val a <=? hi).

(** ASCII white space, as stripped by [int]: the space, the controls 9 to
    13 and the separators 28 to 31. *)
Definition is_space (a : ascii) : bool :=
  let n := nat_of_ascii a in
  ((n =? 32) || ((9 <=? n) && (n <=? 13)) || ((28 <=? n) && (n <=? 31)))%nat.

Fixpoint lstrip (l : list ascii) : list ascii :=
  match l with
  | a :: tl => if is_space a then lstrip tl else l
  | [] => []
  end.

Definition strip (l : list ascii) : list ascii :=
  rev (lstrip (rev (lstrip l))).

(** Decimal digits with single underscores between digits; [acc] is the
    value read so far and [after_us] tells that the previous character was
    an underscore, after which a digit has to follow. *)
Fixpoint int_digits (acc : Z) (after_us : bool) (l : list ascii) : option Z :=
  match l with
  | [] => if after_us then None else Some acc
  | a :: tl =>
      if is_digit a then int_digits (10 * acc + digit_val a) false tl
      else if Ascii.eqb a "_" && negb after_us then int_digits acc true tl
      else None
  end.

(** The limit on the number of digits [int] converts
    ([sys.int_info.default_max_str_digits]); longer input raises
    [ValueError]. *)
Definition max_str_digits : nat := 4300.

Definition int_unsigned (l : list ascii) : option Z :=
  match l with
  | a :: _ =>
      if is_digit a && (length (filter (λ c, is_digit c = true) l) <=? max_str_digits)%nat
      then int_digits 0 false l
      else None
  | [] => None
  end.

(** [int(s)] for a string: [None] stands for [ValueError]. *)
Definition int_of_str (s : string) : option Z :=
  match strip (list_ascii_of_string s) with
  | "-"%char :: tl => Z.opp <$> int_unsigned tl
  | "+"%char :: tl => int_unsigned tl
  | l => int_unsigned l
  end.

(** [int(request.form.get(k))]: [int(None)] raises [TypeError]; [None]
    stands for either exception. *)
Definition py_int (v : option string) : option Z :=
  match v with
  | Some s => int_of_str s
  | None => None
  end.

(** Truth value of a [str | None]. *)
Definition str_truthy (v : option string) : bool :=
  match v with
  | Some s => negb (String.eqb s "")
  | None => false
  end.

(** ** Dates *)

Abbreviation date := Z.

Definition is_leap (y : Z) : bool :=
  (y mod 4 =? 0) && (negb (y mod 100 =? 0) || (y mod 400 =? 0)).

Definition days_in_month (y m : Z) : Z :=
  if m =? 2 then (if is_leap y then 29 else 28)
  else if (m =? 4) || (m =? 6) || (m =? 9) || (m =? 11) then 30
  else 31.

Definition days_before_year (y : Z) : Z :=
  let y1 := y - 1 in y1 * 365 + y1 / 4 - y1 / 100 + y1 / 400.

Definition days_before_month (y m : Z) : Z :=
  nth (Z.to_nat m) [0; 0; 31; 59; 90; 120; 151; 181; 212; 243; 273; 304; 334] 0
  + (if (2 <? m) && is_leap y then 1 else 0).

(** [date(y, m, d)]: [None] stands for [ValueError]. *)
Definition mk_date (y m d : Z) : option date :=
  if (1 <=? y) && (y <=? 9999) && (1 <=? m) && (m <=? 12)
     && (1 <=? d) && (d <=? days_in_month y m)
  then Some (days_before_year y + days_before_month y m + d)
  else None.

(** The [%m] directive: [1[0-2]|0[1-9]|[1-9]]. *)
Definition take_month (l : list ascii) : option (Z * list ascii) :=
  match l with
  | a :: b :: tl =>
      if Ascii.eqb a "1" && digit_in 0 2 b then Some (10 + digit_val b, tl)
      else if Ascii.eqb a "0" && digit_in 1 9 b then Some (digit_val b, tl)
      else if digit_in 1 9 a then Some (digit_val a, b :: tl)
      else None
  | [a] => if digit_in 1 9 a then Some (digit_val a, []) else None
  | [] => None
  end.

(** The [%d] directive: [3[0-1]|[1-2]\d|0[1-9]|[1-9]| [1-9]]. *)
Definition take_day (l : list ascii) : option (Z * list ascii) :=
  match l with
  | a :: b :: tl =>
      if Ascii.eqb a "3" && digit_in 0 1 b then Some (30 + digit_val b, tl)
      else if digit_in 1 2 a && is_digit b then Some (10 * digit_val a + digit_val b, tl)
      else if Ascii.eqb a "0" && digit_in 1 9 b then Some (digit_val b, tl)
      else if digit_in 1 9 a then Some (digit_val a, b :: tl)
      else if Ascii.eqb a " " && digit_in 1 9 b then Some (digit_val b, tl)
      else None
  | [a] => if digit_in 1 9 a then Some (digit_val a, []) else None
  | [] => None
  end.

(** [datetime.strptime(s, '%Y-%m-%d').date()]: [None] stands for
    [ValueError] (no match, unconverted data, or no such day). *)
Definition strptime_date (s : string) : option date :=
  match list_ascii_of_string s with
  | y1 :: y2 :: y3 :: y4 :: "-"%char :: rest =>
      if is_digit y1 && is_digit y2 && is_digit y3 && is_digit y4 then
        match take_month rest with
        | Some (m, "-"%char :: rest') =>
            match take_day rest' with
            | Some (d, []) =>
                mk_date (1000 * digit_val y1 + 100 * digit_val y2
                         + 10 * digit_val y3 + digit_val y4) m d
            | _ => None
            end
        | _ => None
        end
      else None
  | _ => None
  end.

(** ** Data model *)

(** The settings document.  A field is [None] when the key is absent from
    the dictionary; [pricing] holds the remaining keys, which only the
    amount calculator reads. *)
Record Settings := mkSettings {
  rafts_per_slot : option Z;
  capacity : option Z;
  days : option Z;
  time_slots : option (list string);
  start_date : option string;
  end_date : option string;
  pricing : list (string * Z)
}.

(** Truth value of the settings dictionary: a dictionary is false exactly
    when it has no key. *)
Definition settings_truthy (s : Settings) : bool :=
  bool_decide (is_Some (rafts_per_slot s)) || bool_decide (is_Some (capacity s))
  || bool_decide (is_Some (days s)) || bool_decide (is_Some (time_slots s))
  || bool_decide (is_Some (start_date s)) || bool_decide (is_Some (end_date s))
  || negb (bool_decide (pricing s = [])).

(** A raft document.  [raft_day] is [None] when the document has no [day]
    field and [raft_occupancy] is [None] when it has no [occupancy] field.
    [raft_slot] is what the booking form sent, possibly nothing. *)
Record Raft := mkRaft {
  raft_day : option string;
  raft_slot : option string;
  raft_index : Z;
  raft_occupancy : option Z
}.

(** One entry of a booking's [raft_allocations]. *)
Record RaftAlloc := mkRaftAlloc {
  alloc_index : Z;
  seats_assigned : Z
}.

Definition BookingId := nat.

Record Booking := mkBooking {
  booking_id : BookingId;
  name : option string;
  email : option string;
  phone : option string;
  booking_date : string;
  slot : option string;
  group_size : Z;
  status : string;
  raft_allocations : list RaftAlloc;
  amount_per_person : Z;
  total_amount : Z
}.

(** The document store: the [rafts] and [bookings] collections, both in
    insertion order, and the stored settings document. *)
Record DB := mkDB {
  rafts : list Raft;
  bookings : list Booking;
  settings_doc : Settings
}.

(** The dictionary returned by [allocate_raft]; the handler reads it with
    [result.get], so every key may be absent. *)
Record AllocResult := mkAllocResult {
  res_status : option string;
  res_message : option string;
  res_rafts : option (list RaftAlloc)
}.

(** The dictionary returned by [calculate_total_amount]. *)
Record AmountCalc := mkAmountCalc {
  applicable_amount : Z;
  calc_total_amount : Z
}.

(** The arguments of one [create_booking] call. *)
Record BookingArgs := mkBookingArgs {
  arg_name : option string;
  arg_email : option string;
  arg_phone : option string;
  arg_booking_date : string;
  arg_slot : option string;
  arg_group_size : Z;
  arg_status : string;
  arg_raft_allocations : list RaftAlloc;
  arg_amount_per_person : Z;
  arg_total_amount : Z
}.

#[global] Instance RaftAlloc_eq_dec : EqDecision RaftAlloc.
Proof. solve_decision. Defined.
#[global] Instance Raft_eq_dec : EqDecision Raft.
Proof. solve_decision. Defined.

(** ** The request context *)

Inductive Method := GET | POST.

Record Request := mkRequest {
  method : Method;
  form : gmap string string
}.

(** Flashed messages.  The two formatted messages keep their arguments
    instead of the formatted text. *)
Inductive Message :=
| Text (s : string)
| DateWindowMessage (min_date max_date : date)
| GroupSizeMessage (max_people_per_slot : Z).

Record SlotAvailability := mkSlotAvailability {
  available : Z;
  percent_full : Q
}.

Inductive Response :=
| RedirectBook
| RedirectConfirmation (booking_id : BookingId)
| RenderBooking (settings : Settings) (min_date max_date start_date end_date : date)
| RenderHome (settings : Settings)
| Jsonify (data : gmap string SlotAvailability).

Inductive Exn := KeyError (key : string).

(** A call from a handler into one of the imported modules. *)
Inductive Call :=
| CallEnsureRafts (day : string) (slot : option string) (rafts_per_slot capacity : Z)
| CallAllocateRaft (day : string) (slot : option string) (group_size : Z)
| CallCalculateTotalAmount (settings : Settings) (day : string) (group_size : Z)
| CallCreateBooking (args : BookingArgs).

(** What a handler runs against: the store, [current_app.config]'s
    [SETTINGS_CACHE] entry, the flashed messages with their categories, and
    the calls made so far into the imported modules, oldest first. *)
Record World := mkWorld {
  db : DB;
  settings_cache : option Settings;
  flashes : list (Message * string);
  calls : list Call
}.

(** ** The handler monad: state passing over [World], with exceptions *)

Inductive Result (A : Type) :=
| Returned (a : A)
| Raised (e : Exn).
Arguments Returned {A} a.
Arguments Raised {A} e.

Definition Handler (A : Type) : Type := World → Result A * World.

#[global] Instance Handler_ret : MRet Handler := λ A a w, (Returned a, w).
#[global] Instance Handler_bind : MBind Handler := λ A B f m w,
  match m w with
  | (Returned a, w') => f a w'
  | (Raised e, w') => (Raised e, w')
  end.

Definition raise {A} (e : Exn) : Handler A := λ w, (Raised e, w).

(** [d[key]] on an optional field. *)
Definition getitem {A} (key : string) (field : option A) : Handler A :=
  match field with
  | Some v => mret v
  | None => raise (KeyError key)
  end.

Definition flash (m : Message) (category : string) : Handler unit := λ w,
  (Returned (),
   mkWorld (db w) (settings_cache w) (flashes w ++ [(m, category)]) (calls w)).

Definition config_get_settings_cache : Handler (option Settings) := λ w,
  (Returned (settings_cache w), w).

Definition config_set_settings_cache (s : Settings) : Handler unit := λ w,
  (Returned (), mkWorld (db w) (Some s) (flashes w) (calls w)).

(** Run a store operation of an imported module and record the call. *)
Definition call_db {A} (c : Call) (f : DB → A * DB) : Handler A := λ w,
  let '(a, d) := f (db w) in
  (Returned a, mkWorld d (settings_cache w) (flashes w) (calls w ++ [c])).

Definition call_pure {A} (c : Call) (a : A) : Handler A := λ w,
  (Returned a, mkWorld (db w) (settings_cache w) (flashes w) (calls w ++ [c])).

(** [sum(...)] over integers. *)
Definition sum_Z (l : list Z) : Z := foldr Z.add 0 l.

(** Round half to even of the quotient [n / d], for [d > 0]. *)
Definition round_half_even (n d : Z) : Z :=
  let q := n / d in
  let r := n mod d in
  if 2 * r <? d then q
  else if d <? 2 * r then q + 1
  else if Z.even q then q else q + 1.

(** [round(x, 2)].  Python floats are modelled by exact rationals, so the
    result is the multiple of 1/100 nearest to [x], ties to even. *)
Definition py_round2 (x : Q) : Q :=
  (round_half_even (Qnum x * 100) (Zpos (Qden x)) # 100)%Q.

(** ** routes/booking_routes.py *)

Module BookingRoutes.
Section Handlers.

(** The functions the module imports; their code is elsewhere. *)
Variable load_settings : DB → Settings.
Variable ensure_rafts_for_date_slot : DB → string → option string → Z → Z → DB.
Variable allocate_raft :
  DB → option Z → string → option string → Z → AllocResult * DB.
Variable calculate_total_amount : Settings → string → Z → AmountCalc.
Variable create_booking : DB → BookingArgs → BookingId * DB.

Definition get_settings : Handler Settings :=
  settings ← config_get_settings_cache;
  match settings with
  | Some settings => if settings_truthy settings then mret settings else
      settings ← (λ w, (Returned (load_settings (db w)), w));
      config_set_settings_cache settings;;
      mret settings
  | None =>
      settings ← (λ w, (Returned (load_settings (db w)), w));
      config_set_settings_cache settings;;
      mret settings
  end.

Definition home : Handler Response :=
  settings ← get_settings;
  mret (RenderHome settings).

(** [start_date] and [end_date] of [book]: the configured dates when both
    are set and parse, and otherwise [today] and [today] plus the number
    of booking days. *)
Definition booking_window (settings : Settings) (today : date) : date * date :=
  let fallback := (today, today + default 30 (days settings)) in
  if str_truthy (start_date settings) && str_truthy (end_date settings) then
    match start_date settings ≫= strptime_date,
          end_date settings ≫= strptime_date with
    | Some start_date, Some end_date => (start_date, end_date)
    | _, _ => fallback
    end
  else fallback.

Definition max_people_per_slot (settings : Settings) : Z :=
  default 5 (rafts_per_slot settings) * (default 6 (capacity settings) + 1).

Definition reject (m : Message) : Handler Response :=
  flash m "error";; mret RedirectBook.

Definition book (today : date) (request : Request) : Handler Response :=
  settings ← get_settings;
  let '(start_date, end_date) := booking_window settings today in
  let min_date := Z.max start_date today in
  let max_date := end_date in
  match method request with
  | POST =>
      let name := form request !! "name" in
      let email := form request !! "email" in
      let phone := form request !! "phone" in
      let slot := form request !! "slot" in
      match form request !! "booking_date" with
      | None => reject (Text "Please provide a booking date.")
      | Some booking_date_str =>
      if negb (str_truthy (Some booking_date_str))
      then reject (Text "Please provide a booking date.") else
      match strptime_date booking_date_str with
      | None => reject (Text "Invalid booking date format.")
      | Some booking_date =>
      if (booking_date <? min_date) || (max_date <? booking_date)
      then reject (DateWindowMessage min_date max_date) else
      match py_int (form request !! "group_size") with
      | None => reject (Text "Invalid group size")
      | Some group_size =>
      let max_people_per_slot := max_people_per_slot settings in
      if (group_size <? 1) || (max_people_per_slot <? group_size)
      then reject (GroupSizeMessage max_people_per_slot) else
      rafts_per_slot ← getitem "rafts_per_slot" (rafts_per_slot settings);
      capacity ← getitem "capacity" (capacity settings);
      call_db (CallEnsureRafts booking_date_str slot rafts_per_slot capacity)
        (λ d, ((), ensure_rafts_for_date_slot d booking_date_str slot
                     rafts_per_slot capacity));;
      result ← call_db (CallAllocateRaft booking_date_str slot group_size)
        (λ d, allocate_raft d None booking_date_str slot group_size);
      amount_calc ← call_pure
        (CallCalculateTotalAmount settings booking_date_str group_size)
        (calculate_total_amount settings booking_date_str group_size);
      let amount_per_person := applicable_amount amount_calc in
      let total_amount := calc_total_amount amount_calc in
      booking_id ←
        (if bool_decide (res_status result = Some "Confirmed") then
           let args := mkBookingArgs name email phone booking_date_str slot
                         group_size "Confirmed" (default [] (res_rafts result))
                         amount_per_person total_amount in
           booking_id ← call_db (CallCreateBooking args)
                          (λ d, create_booking d args);
           flash (Text (default "Booking Confirmed!" (res_message result)))
                 "success";;
           mret booking_id
         else
           let args := mkBookingArgs name email phone booking_date_str slot
                         group_size "Pending" []
                         amount_per_person total_amount in
           booking_id ← call_db (CallCreateBooking args)
                          (λ d, create_booking d args);
           flash (Text (default "Booking Pending – admin will contact you."
                          (res_message result)))
                 "warning";;
           mret booking_id);
      mret (RedirectConfirmation booking_id)
      end end end
  | GET => mret (RenderBooking settings min_date max_date start_date end_date)
  end.

(** [db.rafts.find({'slot': slot, 'day': {'$exists': True}})]. *)
Definition find_rafts_of_slot (slot : string) : Handler (list Raft) := λ w,
  (Returned (filter (λ r, raft_slot r = Some slot ∧ is_Some (raft_day r))
                    (rafts (db w))), w).

Definition slot_availability (total_capacity : Z) (rafts : list Raft)
  : SlotAvailability :=
  let total_occupancy := sum_Z ((λ r, default 0 (raft_occupancy r)) <$> rafts) in
  let available := Z.max (total_capacity - total_occupancy) 0 in
  let percent_full :=
    if 0 <? total_capacity
    then py_round2 (inject_Z total_occupancy / inject_Z total_capacity * 100)%Q
    else 0%Q in
  mkSlotAvailability available percent_full.

Fixpoint availability_loop (total_capacity : Z) (slots : list string)
    (data : gmap string SlotAvailability)
  : Handler (gmap string SlotAvailability) :=
  match slots with
  | [] => mret data
  | slot :: slots =>
      rafts ← find_rafts_of_slot slot;
      availability_loop total_capacity slots
        (<[slot := slot_availability total_capacity rafts]> data)
  end.

Definition availability : Handler Response :=
  settings ← get_settings;
  let slots := default [] (time_slots settings) in
  rafts_per_slot ← getitem "rafts_per_slot" (rafts_per_slot settings);
  capacity ← getitem "capacity" (capacity settings);
  let total_capacity := rafts_per_slot * capacity in
  data ← availability_loop total_capacity slots ∅;
  mret (Jsonify data).

(** *** Vocabulary of the statements about the handlers *)

(** The settings a handler works with: the cached ones when the cache
    holds a non-empty dictionary, the loaded ones otherwise. *)
Definition current_settings (w : World) : Settings :=
  match settings_cache w with
  | Some s => if settings_truthy s then s else load_settings (db w)
  | None => load_settings (db w)
  end.

(** The world once the settings are fetched: only the cache may differ. *)
Definition with_settings (w : World) : World :=
  mkWorld (db w) (Some (current_settings w)) (flashes w) (calls w).

(** The booking window as the specification words it. *)
Definition spec_window (settings : Settings) (today : date) : date * date :=
  match start_date settings ≫= strptime_date,
        end_date settings ≫= strptime_date with
  | Some start_date, Some end_date => (Z.max start_date today, end_date)
  | _, _ => (today, today + default 30 (days settings))
  end.

Definition min_date (settings : Settings) (today : date) : date :=
  Z.max (booking_window settings today).1 today.

Definition max_date (settings : Settings) (today : date) : date :=
  (booking_window settings today).2.

(** A request sent back to the form: the response redirects to the booking
    page, one error message is flashed, no imported function was called
    and the store is as it was. *)
Definition rejected_at_boundary (w : World) (out : Result Response * World)
  : Prop :=
  out.1 = Returned RedirectBook
  ∧ (∃ m, flashes out.2 = (flashes w ++ [(m, "error")])%list)
  ∧ calls out.2 = calls w
  ∧ db out.2 = db w.

(** The raft documents the availability query matches for a slot, and
    their total occupancy. *)
Definition rafts_of_slot (d : DB) (slot : string) : list Raft :=
  filter (λ r, raft_slot r = Some slot ∧ is_Some (raft_day r)) (rafts d).

Definition slot_occupancy (d : DB) (slot : string) : Z :=
  sum_Z ((λ r, default 0 (raft_occupancy r)) <$> rafts_of_slot d slot).

Definition availability_data (total_capacity : Z) (d : DB)
    (slots : list string) (data : gmap string SlotAvailability)
  : gmap string SlotAvailability :=
  foldl (λ data slot,
           <[slot := slot_availability total_capacity (rafts_of_slot d slot)]> data)
        data slots.

End Handlers.
End BookingRoutes.

(** ** models/raft_model.py *)

Module RaftModel.

(** The raft documents of one (date, slot) pair. *)
Definition is_raft_of (day : string) (slot : option string) (r : Raft) : bool :=
  bool_decide (raft_day r = Some day ∧ raft_slot r = slot).

Definition has_raft (day : string) (slot : option string) (i : Z)
    (rs : list Raft) : bool :=
  existsb (λ r, is_raft_of day slot r && (raft_index r =? i)) rs.

(** Upsert keyed on date, slot and index: insert a raft with no seat
    taken unless a document with that key is already there. *)
Definition upsert_raft (day : string) (slot : option string)
    (rs : list Raft) (i : Z) : list Raft :=
  if has_raft day slot i rs then rs
  else rs ++ [mkRaft (Some day) slot i (Some 0)].

(** Modelled from the spec: [ensure_rafts_for_date_slot] of
    models/raft_model.py, whose code is not at hand.  Section 4.2 asks
    for upsert semantics keyed on date, slot and index, with zero
    occupancy for a raft that is created; rafts are never deleted
    (section 3).  Rafts are numbered from 1 to [rafts_per_slot].  A raft
    document has no capacity attribute (section 3), so [capacity] is not
    stored. *)
Definition ensure_rafts_for_date_slot (d : DB) (day : string)
    (slot : option string) (rafts_per_slot capacity : Z) : DB :=
  mkDB (foldl (upsert_raft day slot) (rafts d) (seqZ 1 rafts_per_slot))
       (bookings d) (settings_doc d).

(** The number of raft documents of a (date, slot) pair. *)
Definition count_rafts (d : DB) (day : string) (slot : option string) : nat :=
  length (filter (λ r, is_raft_of day slot r = true) (rafts d)).

(** The indices of the raft documents of a (date, slot) pair, in store
    order. *)
Definition pair_indices (day : string) (slot : option string)
    (rs : list Raft) : list Z :=
  raft_index <$> filter (λ r, is_raft_of day slot r = true) rs.

End RaftModel.

(** ** utils/allocation_logic.py *)

Module AllocationLogic.
Import RaftModel.

(** Modelled from the spec: [load_settings] of utils/allocation_logic.py,
    whose code is not at hand.  Section 4.1: the settings are loaded from
    the store, with the documented defaults for missing numeric fields. *)
Definition load_settings (d : DB) : Settings :=
  let s := settings_doc d in
  mkSettings (Some (default 5 (rafts_per_slot s)))
             (Some (default 6 (capacity s)))
             (Some (default 30 (days s)))
             (time_slots s) (start_date s) (end_date s) (pricing s).

Definition occupancy_of (r : Raft) : Z := default 0 (raft_occupancy r).

#[local] Instance raft_index_le_dec :
  RelDecision (λ a b : Raft, raft_index a ≤ raft_index b).
Proof. intros a b. apply Z_le_dec. Defined.

(** Step 1: the rafts of the (date, slot) pair, ordered by raft index. *)
Definition slot_rafts (d : DB) (day : string) (slot : option string)
  : list Raft :=
  merge_sort (λ a b : Raft, raft_index a ≤ raft_index b)
             (filter (λ r, is_raft_of day slot r = true) (rafts d)).

(** Step 2: the standard seats left on a raft, and whether the one
    overflow seat of the slot is still free (no raft is above its
    standard capacity). *)
Definition room (capacity : Z) (r : Raft) : Z :=
  Z.max 0 (capacity - occupancy_of r).

Definition overflow_free (capacity : Z) (rs : list Raft) : bool :=
  match rs with
  | [] => false
  | _ => forallb (λ r, occupancy_of r <=? capacity) rs
  end.

(** Step 4: total remaining capacity of the slot, the one overflow seat
    included. *)
Definition remaining_capacity (capacity : Z) (rs : list Raft) : Z :=
  sum_Z (room capacity <$> rs) + (if overflow_free capacity rs then 1 else 0).

(** Step 3, splitting: fill the standard seats in index order; returns
    the seats assigned and the number of people still without a seat. *)
Fixpoint fill_rafts (capacity : Z) (rs : list Raft) (n : Z)
  : list RaftAlloc * Z :=
  match rs with
  | [] => ([], n)
  | r :: rs =>
      let k := Z.min (room capacity r) n in
      if 0 <? k then
        let '(allocs, unseated) := fill_rafts capacity rs (n - k) in
        (mkRaftAlloc (raft_index r) k :: allocs, unseated)
      else fill_rafts capacity rs n
  end.

(** Step 3, last resort: the overflow seat goes to the lowest-index raft. *)
Definition add_overflow_seat (rs : list Raft) (allocs : list RaftAlloc)
  : list RaftAlloc :=
  match rs with
  | [] => allocs
  | r :: _ =>
      match allocs with
      | a :: allocs' =>
          if alloc_index a =? raft_index r
          then mkRaftAlloc (alloc_index a) (seats_assigned a + 1) :: allocs'
          else mkRaftAlloc (raft_index r) 1 :: allocs
      | [] => [mkRaftAlloc (raft_index r) 1]
      end
  end.

(** Step 3: the lowest-index raft with room for the whole party takes
    it; otherwise the party is split over the standard seats, and the
    overflow seat is used for who is left. *)
Definition choose_seats (capacity : Z) (rs : list Raft) (n : Z)
  : list RaftAlloc :=
  match find (λ r, n <=? room capacity r) rs with
  | Some r => [mkRaftAlloc (raft_index r) n]
  | None =>
      let '(allocs, unseated) := fill_rafts capacity rs n in
      if 0 <? unseated then add_overflow_seat rs allocs else allocs
  end.

Definition seats_for (i : Z) (allocs : list RaftAlloc) : Z :=
  sum_Z (seats_assigned <$> filter (λ a, alloc_index a = i) allocs).

(** Step 5: increment the occupancy of each raft involved. *)
Definition apply_seats (day : string) (slot : option string)
    (allocs : list RaftAlloc) (r : Raft) : Raft :=
  if is_raft_of day slot r && negb (seats_for (raft_index r) allocs =? 0)
  then mkRaft (raft_day r) (raft_slot r) (raft_index r)
              (Some (occupancy_of r + seats_for (raft_index r) allocs))
  else r.

Definition total_seats (allocs : list RaftAlloc) : Z :=
  sum_Z (seats_assigned <$> allocs).

(** Modelled from the spec: [allocate_raft] of utils/allocation_logic.py,
    whose code is not at hand.  Section 4.3, steps 1 to 5, with the
    policy of section 9 (lowest index first, overflow last) and one
    overflow seat per slot (step 2 and the glossary).  The standard
    capacity is that of the stored settings; the raft hint is not
    described and is not used. *)
Definition allocate_raft (d : DB) (raft_hint : option Z) (day : string)
    (slot : option string) (group_size : Z) : AllocResult * DB :=
  let capacity := default 6 (capacity (load_settings d)) in
  let rs := slot_rafts d day slot in
  if remaining_capacity capacity rs <? group_size then
    (mkAllocResult (Some "Pending")
       (Some "Not enough seats in this slot: an administrator will handle this booking manually.")
       (Some []), d)
  else
    let allocs := choose_seats capacity rs group_size in
    (mkAllocResult (Some "Confirmed") (Some "Booking Confirmed!") (Some allocs),
     mkDB (apply_seats day slot allocs <$> rafts d) (bookings d) (settings_doc d)).

(** The standard capacity [allocate_raft] works with, and the remaining
    total capacity of a slot, the one overflow seat included. *)
Definition standard_capacity (d : DB) : Z :=
  default 6 (capacity (load_settings d)).

Definition slot_remaining_capacity (d : DB) (day : string)
    (slot : option string) : Z :=
  remaining_capacity (standard_capacity d) (slot_rafts d day slot).

End AllocationLogic.

(** ** utils/amount_calculator.py *)

Module AmountCalculator.
Section RateRule.

(** The per-person rate that applies to a date.  The rule is owned by
    the calculator and driven by the settings; it is not described any
    further, so it is left open here. *)
Variable applicable_rate : Settings → string → Z.

(** Modelled from the spec: [calculate_total_amount] of
    utils/amount_calculator.py, whose code is not at hand.  Section 4.4:
    the rate applicable to the date, multiplied by the group size; no
    store is read or written. *)
Definition calculate_total_amount (settings : Settings) (day : string)
    (group_size : Z) : AmountCalc :=
  let applicable_amount := applicable_rate settings day in
  mkAmountCalc applicable_amount (applicable_amount * group_size).

End RateRule.
End AmountCalculator.

(** ** models/booking_model.py *)

Module BookingModel.

(** Modelled from the spec: [create_booking] of models/booking_model.py,
    whose code is not at hand.  Section 4.5: inserts a new record and
    returns its identifier; identifiers are positions in the collection. *)
Definition create_booking (d : DB) (a : BookingArgs) : BookingId * DB :=
  let id := length (bookings d) in
  (id,
   mkDB (rafts d)
        (bookings d ++
           [mkBooking id (arg_name a) (arg_email a) (arg_phone a)
              (arg_booking_date a) (arg_slot a) (arg_group_size a)
              (arg_status a) (arg_raft_allocations a)
              (arg_amount_per_person a) (arg_total_amount a)])
        (settings_doc d)).

End BookingModel.

(** ** The booking handlers, continued: outcomes of [book] *)

Module BookingOutcome.
Import BookingRoutes.
Section Handlers.
Variable ensure_rafts_for_date_slot : DB → string → option string → Z → Z → DB.
Variable allocate_raft :
  DB → option Z → string → option string → Z → AllocResult * DB.
Variable calculate_total_amount : Settings → string → Z → AmountCalc.
Variable create_booking : DB → BookingArgs → BookingId * DB.

(** A POST passes the checks of [book]: the booking date is there, parses
    to [d] and lies in the window, and the group size parses to [n] and
    lies between 1 and [max_people_per_slot]. *)
Definition validated (settings : Settings) (today : date) (request : Request)
    (bs : string) (d n : Z) : Prop :=
  form request !! "booking_date" = Some bs
  ∧ strptime_date bs = Some d
  ∧ min_date settings today ≤ d ≤ max_date settings today
  ∧ py_int (form request !! "group_size") = Some n
  ∧ 1 ≤ n ≤ max_people_per_slot settings.

Definition is_confirmed (result : AllocResult) : bool :=
  bool_decide (res_status result = Some "Confirmed").

(** The arguments [book] hands to [create_booking]. *)
Definition booking_args (request : Request) (bs : string) (n : Z)
    (result : AllocResult) (amount : AmountCalc) : BookingArgs :=
  mkBookingArgs (form request !! "name") (form request !! "email")
    (form request !! "phone") bs (form request !! "slot") n
    (if is_confirmed result then "Confirmed" else "Pending")
    (if is_confirmed result then default [] (res_rafts result) else [])
    (applicable_amount amount) (calc_total_amount amount).

(** The message and category [book] flashes after the allocation. *)
Definition outcome_flash (result : AllocResult) : Message * string :=
  if is_confirmed result
  then (Text (default "Booking Confirmed!" (res_message result)), "success")
  else (Text (default "Booking Pending – admin will contact you."
                (res_message result)), "warning").

(** The stores a validated booking goes through: after the rafts are
    ensured, and what the allocation returns on that store. *)
Definition ensured_store (w : World) (request : Request) (bs : string)
    (r c : Z) : DB :=
  ensure_rafts_for_date_slot (db w) bs (form request !! "slot") r c.

Definition allocation (w : World) (request : Request) (bs : string)
    (n r c : Z) : AllocResult * DB :=
  allocate_raft (ensured_store w request bs r c) None bs
    (form request !! "slot") n.

Definition stored_args (w : World) (settings : Settings) (request : Request)
    (bs : string) (n r c : Z) : BookingArgs :=
  booking_args request bs n (allocation w request bs n r c).1
    (calculate_total_amount settings bs n).

Definition stored (w : World) (settings : Settings) (request : Request)
    (bs : string) (n r c : Z) : BookingId * DB :=
  create_booking (allocation w request bs n r c).2
    (stored_args w settings request bs n r c).

Definition booking_calls (w : World) (settings : Settings) (request : Request)
    (bs : string) (n r c : Z) : list Call :=
  [CallEnsureRafts bs (form request !! "slot") r c;
   CallAllocateRaft bs (form request !! "slot") n;
   CallCalculateTotalAmount settings bs n;
   CallCreateBooking (stored_args w settings request bs n r c)].

End Handlers.
End BookingOutcome.

(** ** routes/booking_routes.py, the other pages *)

Module BookingPages.
Import BookingRoutes.

Inductive PageResponse :=
| RedirectHome
| RedirectTrackBooking
| RenderBookingConfirmation (booking : Booking)
| RenderTrackBooking
| RenderTrackBookingResult (booking : Booking).

(** [db.bookings.find_one({'_id': id})]: the first booking with that
    identifier, in the order of the collection. *)
Definition find_one_booking (id : BookingId) (d : DB) : option Booking :=
  find (λ b, bool_decide (booking_id b = id)) (bookings d).

Section Handlers.

(** [bson.ObjectId(s)], with [None] for [InvalidId]. *)
Variable ObjectId : string → option BookingId.

(** [models.booking_model.find_latest_by_contact]: a cursor, read here as
    the list of its bookings. *)
Variable find_latest_by_contact : DB → string → string → list Booking.

Definition bookings_find_one (id : BookingId) : Handler (option Booking) :=
  λ w, (Returned (find_one_booking id (db w)), w).

Definition booking_confirmation (booking_id : string) : Handler PageResponse :=
  b ← match ObjectId booking_id with
      | Some id => bookings_find_one id
      | None => mret None
      end;
  match b with
  | None => flash (Text "Booking not found") "error";; mret RedirectHome
  | Some b => mret (RenderBookingConfirmation b)
  end.

(** The identifier of the rendered booking is replaced by its string form;
    the record is kept as it is here. *)
Definition track_booking (request : Request) : Handler PageResponse :=
  match method request with
  | POST =>
      let email := form request !! "email" in
      let phone := form request !! "phone" in
      if negb (str_truthy email) || negb (str_truthy phone) then
        flash (Text "Please provide both email and phone number.") "error";;
        mret RedirectTrackBooking
      else
        cursor ← (λ w, (Returned (find_latest_by_contact (db w)
                                    (default "" email) (default "" phone)), w));
        match head cursor with
        | None =>
            flash (Text "No booking found for that contact.") "error";;
            mret RedirectTrackBooking
        | Some booking => mret (RenderTrackBookingResult booking)
        end
  | GET => mret RenderTrackBooking
  end.

End Handlers.

(** Move every raft that has a day to the day [f] gives. *)
Definition redate_raft (f : string → string) (r : Raft) : Raft :=
  mkRaft (f <$> raft_day r) (raft_slot r) (raft_index r) (raft_occupancy r).

Definition redate_world (f : string → string) (w : World) : World :=
  mkWorld (mkDB (redate_raft f <$> rafts (db w)) (bookings (db w))
                (settings_doc (db w)))
          (settings_cache w) (flashes w) (calls w).

End BookingPages.

(** ** app.py *)

Module App.

(** The decimal digits of a string, in order: [filter(str.isdigit, s)]. *)
Definition str_digits (s : string) : list ascii :=
  filter (λ c, is_digit c = true) (list_ascii_of_string s).

(** [digits[a:b]] for [a ≤ b]. *)
Definition slice (a b : nat) (digits : list ascii) : string :=
  string_of_list_ascii (take (b - a) (drop a digits)).

(** The [format_phone] template filter, on a string or [None]. *)
Definition format_phone (phone : option string) : string :=
  match phone with
  | None => "-"
  | Some phone =>
      if negb (str_truthy (Some phone)) then "-" else
      let digits := str_digits phone in
      if (length digits =? 10)%nat then
        "(" ++ slice 0 3 digits ++ ") " ++ slice 3 6 digits ++ "-"
        ++ slice 6 10 digits
      else if (length digits =? 11)%nat
              && bool_decide (head digits = Some "1"%char) then
        "+1 (" ++ slice 1 4 digits ++ ") " ++ slice 4 7 digits ++ "-"
        ++ slice 7 11 digits
      else phone
  end.

Section LoadUser.

(** [models.user_model.User]; a call that raises is [inl] of the
    exception's text. *)
Variable User : Type.
Variable find_by_id : DB → string → string + option User.
Variable is_active : User → string + bool.

Definition error_line (user_id e : string) : string :=
  "[ERROR] Error loading user " ++ user_id ++ ": " ++ e.

(** The user loader: the loaded user, if any, and the lines printed. *)
Definition load_user (d : DB) (user_id : string) : option User * list string :=
  match find_by_id d user_id with
  | inr (Some user) =>
      match is_active user with
      | inr true => (Some user, [])
      | inr false => (None, [])
      | inl e => (None, [error_line user_id e])
      end
  | inr None => (None, [])
  | inl e => (None, [error_line user_id e])
  end.

End LoadUser.
End App.

(** ** Sample data *)

Module Scenario.

(** 2025-01-15. *)
Definition today : date := 739266.

Definition settings : Settings :=
  mkSettings (Some 5) (Some 6) (Some 30) (Some ["morning"; "afternoon"])
             (Some "2025-01-01") (Some "2025-01-31") [("amount", 1500)].

(** A flat rate: the first pricing entry. *)
Definition rate (settings : Settings) (day : string) : Z :=
  match pricing settings with
  | (_, amount) :: _ => amount
  | [] => 0
  end.

Definition store : DB := mkDB [] [] settings.

(** A fresh process: nothing cached, nothing flashed, nothing called. *)
Definition world : World := mkWorld store None [] [].

Definition booking_form (day group_size : string) : gmap string string :=
  list_to_map [("name", "Asha"); ("email", "asha@example.org");
               ("phone", "5550100"); ("booking_date", day);
               ("slot", "morning"); ("group_size", group_size)].

Definition post (day group_size : string) : Request :=
  mkRequest POST (booking_form day group_size).

(** The morning of 2025-01-20 with its five rafts, all empty. *)
Definition slot_store : DB :=
  RaftModel.ensure_rafts_for_date_slot store "2025-01-20" (Some "morning") 5 6.

(** The same morning with seven people on each of the five rafts. *)
Definition crowded_world : World :=
  mkWorld
    (mkDB ((λ i, mkRaft (Some "2025-01-20") (Some "morning") i (Some 7))
             <$> [1; 2; 3; 4; 5]) [] settings)
    (Some settings) [] [].

(** Settings without [rafts_per_slot], [days] and the window dates. *)
Definition partial_settings : Settings :=
  mkSettings None (Some 6) None (Some ["morning"]) None None [].

Definition partial_world : World :=
  mkWorld (mkDB [] [] partial_settings) (Some partial_settings) [] [].

(** One raft of 100000 seats, with 100001 people on it. *)
Definition large_settings : Settings :=
  mkSettings (Some 1) (Some 100000) (Some 30) (Some ["morning"]) None None [].

Definition large_world : World :=
  mkWorld
    (mkDB [mkRaft (Some "2025-01-20") (Some "morning") 1 (Some 100001)] []
          large_settings)
    (Some large_settings) [] [].

End Scenario.

(** ** More sample data *)

Module Samples.

(** Settings whose window ended on 2024-12-31, before [Scenario.today]. *)
Definition closed_settings : Settings :=
  mkSettings (Some 5) (Some 6) (Some 30) (Some ["morning"])
             (Some "2024-12-01") (Some "2024-12-31") [].

Definition closed_world : World :=
  mkWorld (mkDB [] [] closed_settings) (Some closed_settings) [] [].

(** A POST that carries nothing but a group size of zero. *)
Definition post_without_date : Request :=
  mkRequest POST (list_to_map [("group_size", "0")]).

(** The store of [Scenario.world] after its settings document lost most of
    its keys, in a process that cached the settings before. *)
Definition later_world : World :=
  mkWorld (mkDB [] [] Scenario.partial_settings)
          (Some (AllocationLogic.load_settings Scenario.store)) [] [].

(** Every raft moved to 2025-03-01. *)
Definition to_march (day : string) : string := "2025-03-01".

(** Three people on each of the five rafts of the morning. *)
Definition half_full_world : World :=
  mkWorld
    (mkDB ((λ i, mkRaft (Some "2025-01-20") (Some "morning") i (Some 3))
             <$> [1; 2; 3; 4; 5]) [] Scenario.settings)
    (Some Scenario.settings) [] [].

(** Settings with no raft at all. *)
Definition no_raft_settings : Settings :=
  mkSettings (Some 0) (Some 6) (Some 30) (Some ["morning"]) None None [].

Definition no_raft_world : World :=
  mkWorld (mkDB [] [] no_raft_settings) (Some no_raft_settings) [] [].

(** A tracking request without a phone number. *)
Definition track_without_phone : Request :=
  mkRequest POST (list_to_map [("email", "asha@example.org")]).

End Samples.

(** * Properties *)

(** ** Builtins on sample inputs *)

Example strptime_2025_01_15 : strptime_date "2025-01-15" = Some 739266.
Proof. reflexivity. Qed.

Example strptime_bad_day : strptime_date "2025-02-30" = None.
Proof. reflexivity. Qed.

Example int_of_str_padded : int_of_str " +1_0 " = Some 10.
Proof. reflexivity. Qed.

(** ** The allocation engine *)

Module AllocationFacts.
Import RaftModel AllocationLogic.

Lemma sum_Z_cons x l : sum_Z (x :: l) = x + sum_Z l.
Proof. reflexivity. Qed.

Lemma total_seats_cons a allocs :
  total_seats (a :: allocs) = seats_assigned a + total_seats allocs.
Proof. reflexivity. Qed.

Lemma room_nonneg cap r : 0 ≤ room cap r.
Proof. unfold room. lia. Qed.

Lemma sum_room_nonneg cap rs : 0 ≤ sum_Z (room cap <$> rs).
Proof.
  induction rs as [|r rs IH]; [done|].
  rewrite fmap_cons, sum_Z_cons. pose proof (room_nonneg cap r). lia.
Qed.

(** Splitting seats everybody the standard seats can take. *)
Lemma fill_rafts_spec cap rs : ∀ n, 0 ≤ n →
  total_seats (fill_rafts cap rs n).1 + (fill_rafts cap rs n).2 = n
  ∧ (fill_rafts cap rs n).2 = Z.max 0 (n - sum_Z (room cap <$> rs)).
Proof.
  induction rs as [|r rs IH]; intros n Hn; cbn [fill_rafts].
  - change (total_seats ([], n).1) with 0. change (sum_Z _) with 0.
    cbn [snd]. lia.
  - rewrite fmap_cons, sum_Z_cons.
    pose proof (room_nonneg cap r) as Hr.
    pose proof (sum_room_nonneg cap rs) as Hs.
    destruct (0 <? Z.min (room cap r) n) eqn:Hk.
    + apply Z.ltb_lt in Hk.
      destruct (IH (n - Z.min (room cap r) n)) as [IH1 IH2]; [lia|].
      destruct (fill_rafts cap rs (n - Z.min (room cap r) n)) as [a u].
      cbn [fst snd] in *. rewrite total_seats_cons. cbn [seats_assigned]. lia.
    + apply Z.ltb_ge in Hk.
      destruct (IH n Hn) as [IH1 IH2]. lia.
Qed.

Lemma add_overflow_seat_total rs allocs :
  rs ≠ [] → total_seats (add_overflow_seat rs allocs) = total_seats allocs + 1.
Proof.
  intros Hrs. destruct rs as [|r rs]; [done|].
  unfold add_overflow_seat.
  destruct allocs as [|a allocs]; [done|].
  destruct (alloc_index a =? raft_index r);
    rewrite !total_seats_cons; simpl; lia.
Qed.

Lemma overflow_free_nonempty cap rs : overflow_free cap rs = true → rs ≠ [].
Proof. by destruct rs. Qed.

(** Whoever fits in the remaining capacity gets a seat. *)
Lemma choose_seats_total cap rs n :
  0 ≤ n → n ≤ remaining_capacity cap rs →
  total_seats (choose_seats cap rs n) = n.
Proof.
  intros Hn Hfit. unfold choose_seats.
  destruct (find _ rs) as [r|].
  { rewrite total_seats_cons. change (total_seats []) with 0. simpl. lia. }
  destruct (fill_rafts_spec cap rs n Hn) as [Hsum Hleft].
  destruct (fill_rafts cap rs n) as [allocs u]. simpl in *.
  unfold remaining_capacity in Hfit.
  destruct (0 <? u) eqn:Hu.
  - apply Z.ltb_lt in Hu.
    destruct (overflow_free cap rs) eqn:Hov; [|lia].
    rewrite add_overflow_seat_total by by eapply overflow_free_nonempty.
    lia.
  - apply Z.ltb_ge in Hu. lia.
Qed.





End AllocationFacts.

(** ** The raft ledger *)

Module RaftFacts.
Import RaftModel.

Section Pair.
Variables (day : string) (slot : option string).

#[local] Abbreviation pair_indices := (pair_indices day slot).

Lemma has_raft_indices i rs :
  has_raft day slot i rs = true ↔ i ∈ pair_indices rs.
Proof.
  unfold has_raft, pair_indices. rewrite existsb_exists, list_elem_of_fmap.
  split.
  - intros (r & Hin & Hr). apply andb_true_iff in Hr as [Hp Hi].
    exists r. split; [symmetry; by apply Z.eqb_eq|].
    apply list_elem_of_filter. split; [done|by apply list_elem_of_In].
  - intros (r & -> & Hr). apply list_elem_of_filter in Hr as [Hp Hin].
    exists r. split; [by apply list_elem_of_In|].
    apply andb_true_iff. split; [done|apply Z.eqb_refl].
Qed.

Lemma pair_indices_upsert rs i :
  pair_indices (upsert_raft day slot rs i)
  = if has_raft day slot i rs then pair_indices rs
    else (pair_indices rs ++ [i])%list.
Proof.
  unfold upsert_raft. destruct (has_raft day slot i rs); [done|].
  unfold pair_indices. rewrite filter_app, fmap_app. f_equal.
  rewrite filter_cons_True; [done|].
  unfold is_raft_of. by apply bool_decide_eq_true.
Qed.

Lemma pair_indices_ensure rs l :
  NoDup (pair_indices rs) →
  NoDup (pair_indices (foldl (upsert_raft day slot) rs l))
  ∧ ∀ i, i ∈ pair_indices (foldl (upsert_raft day slot) rs l)
         ↔ i ∈ pair_indices rs ∨ i ∈ l.
Proof.
  revert rs. induction l as [|j l IH]; intros rs Hnd; simpl.
  { split; [done|]. intros i. rewrite elem_of_nil. tauto. }
  assert (Hstep : NoDup (pair_indices (upsert_raft day slot rs j))
                  ∧ ∀ i, i ∈ pair_indices (upsert_raft day slot rs j)
                         ↔ i ∈ pair_indices rs ∨ i = j).
  { rewrite pair_indices_upsert.
    destruct (has_raft day slot j rs) eqn:Hj.
    - apply has_raft_indices in Hj. split; [done|].
      intros i. split; [tauto|]. intros [?| ->]; done.
    - assert (j ∉ pair_indices rs) as Hnot.
      { rewrite <- has_raft_indices. congruence. }
      split.
      + apply NoDup_app. split; [done|]. split; [|apply NoDup_singleton].
        intros x Hx ->%list_elem_of_singleton. done.
      + intros i. rewrite elem_of_app, list_elem_of_singleton. tauto. }
  destruct Hstep as [Hnd' Hel].
  destruct (IH _ Hnd') as [IH1 IH2]. split; [done|].
  intros i. rewrite IH2, Hel, elem_of_cons. tauto.
Qed.

(** Upserting keys that are all present changes nothing. *)
Lemma ensure_present rs l :
  (∀ i, i ∈ l → i ∈ pair_indices rs) →
  foldl (upsert_raft day slot) rs l = rs.
Proof.
  induction l as [|j l IH]; intros Hall; simpl; [done|].
  assert (upsert_raft day slot rs j = rs) as ->.
  { unfold upsert_raft.
    assert (has_raft day slot j rs = true) as ->; [|done].
    apply has_raft_indices, Hall. by left. }
  apply IH. intros i Hi. apply Hall. by right.
Qed.

(** What the upserts add is rafts of the pair with no seat taken; what
    was there stays. *)
Lemma ensure_new_rafts rs l r :
  r ∈ foldl (upsert_raft day slot) rs l →
  r ∈ rs ∨ (raft_occupancy r = Some 0 ∧ is_raft_of day slot r = true).
Proof.
  revert rs. induction l as [|j l IH]; intros rs; simpl; [by left|].
  intros Hr. apply IH in Hr as [Hr|Hr]; [|by right].
  unfold upsert_raft in Hr. destruct (has_raft day slot j rs); [by left|].
  apply elem_of_app in Hr as [Hr|Hr]; [by left|].
  apply list_elem_of_singleton in Hr as ->. right. split; [done|].
  unfold is_raft_of. by apply bool_decide_eq_true.
Qed.

End Pair.




End RaftFacts.

(** ** The amount calculator *)

Module AmountFacts.
Import AmountCalculator.

(** C8. [calculate_total_amount] is a function of the settings, the date
    and the group size alone: it returns the rate applicable to the date
    and, for every group size, that rate multiplied by the group size; a
    handler that calls it leaves the store, the cache and the flashed
    messages as they were. *)
Theorem calculate_total_amount_multiplies
    (applicable_rate : Settings → string → Z)
    (settings : Settings) (day : string) (n : Z) :
  let amount := calculate_total_amount applicable_rate settings day n in
  calc_total_amount amount = applicable_amount amount * n
  ∧ applicable_amount amount = applicable_rate settings day
  ∧ ∀ w, let w' := (call_pure (CallCalculateTotalAmount settings day n)
                      amount w).2 in
         db w' = db w ∧ settings_cache w' = settings_cache w
         ∧ flashes w' = flashes w.
Proof. repeat split. Qed.

End AmountFacts.

(** ** The booking routes *)

Module BookingFacts.
Import BookingRoutes.

Lemma bind_run {A B} (m : Handler A) (f : A → Handler B) w a w' :
  m w = (Returned a, w') → (m ≫= f) w = f a w'.
Proof. intros H. unfold mbind, Handler_bind. by rewrite H. Qed.

Lemma bind_assoc {A B C} (m : Handler A) (f : A → Handler B)
    (g : B → Handler C) w :
  ((m ≫= f) ≫= g) w = (m ≫= λ a, f a ≫= g) w.
Proof. unfold mbind, Handler_bind. by destruct (m w) as [[a|e] w']. Qed.

(** Unfold the monad operations of a handler run. *)
Ltac unfold_handler :=
  unfold mbind, mret, Handler_bind, Handler_ret, raise, getitem, reject, flash,
    config_get_settings_cache, config_set_settings_cache, call_db, call_pure.

Section Handlers.
Variable load_settings : DB → Settings.
Variable ensure_rafts_for_date_slot : DB → string → option string → Z → Z → DB.
Variable allocate_raft :
  DB → option Z → string → option string → Z → AllocResult * DB.
Variable calculate_total_amount : Settings → string → Z → AmountCalc.
Variable create_booking : DB → BookingArgs → BookingId * DB.

#[local] Abbreviation book := (book load_settings ensure_rafts_for_date_slot allocate_raft
                    calculate_total_amount create_booking).
#[local] Abbreviation availability := (availability load_settings).
#[local] Abbreviation get_settings := (get_settings load_settings).
#[local] Abbreviation current_settings := (current_settings load_settings).
#[local] Abbreviation with_settings := (with_settings load_settings).

Lemma get_settings_run w :
  get_settings w = (Returned (current_settings w), with_settings w).
Proof.
  unfold BookingRoutes.get_settings, current_settings, with_settings.
  unfold_handler. destruct w as [d [s|] fl cs]; cbn; [|done].
  by destruct (settings_truthy s).
Qed.

Lemma getitem_run {A} key (v : A) w :
  getitem key (Some v) w = (Returned v, w).
Proof. reflexivity. Qed.

Lemma flash_run m category w :
  flash m category w
  = (Returned (),
     mkWorld (db w) (settings_cache w) (flashes w ++ [(m, category)]) (calls w)).
Proof. reflexivity. Qed.

Lemma call_db_run {A} c (f : DB → A * DB) w :
  call_db c f w
  = (Returned (f (db w)).1,
     mkWorld (f (db w)).2 (settings_cache w) (flashes w) (calls w ++ [c])).
Proof. unfold call_db. by destruct (f (db w)). Qed.

Lemma call_pure_run {A} c (a : A) w :
  call_pure c a w
  = (Returned a,
     mkWorld (db w) (settings_cache w) (flashes w) (calls w ++ [c])).
Proof. reflexivity. Qed.

Lemma reject_run m w :
  reject m w
  = (Returned RedirectBook,
     mkWorld (db w) (settings_cache w) (flashes w ++ [(m, "error")]) (calls w)).
Proof. reflexivity. Qed.

Lemma strptime_date_nonempty s d : strptime_date s = Some d → s ≠ "".
Proof. by intros H ->. Qed.

Lemma str_truthy_parsed v d :
  v ≫= strptime_date = Some d → str_truthy v = true.
Proof.
  destruct v as [s|]; [|done]. simpl. intros H%strptime_date_nonempty.
  apply negb_true_iff, String.eqb_neq. done.
Qed.

Lemma window_refines settings today :
  (min_date settings today, max_date settings today)
  = spec_window settings today.
Proof.
  unfold min_date, max_date, spec_window, booking_window.
  destruct (start_date settings ≫= strptime_date) as [sd|] eqn:Hs;
    destruct (end_date settings ≫= strptime_date) as [ed|] eqn:He.
  - rewrite (str_truthy_parsed _ _ Hs), (str_truthy_parsed _ _ He).
    reflexivity.
  - destruct (_ && _); cbn [fst snd]; f_equal; lia.
  - destruct (_ && _); cbn [fst snd]; f_equal; lia.
  - destruct (_ && _); cbn [fst snd]; f_equal; lia.
Qed.

(** C4. For all settings values [rafts_per_slot = R] and [capacity = C],
    the maximum group size accepted per slot is [R * (C + 1)]; with the
    default settings, [R = 5] and [C = 6], whether written out or left
    to the defaults, it is 35. *)
Theorem max_people_per_slot_formula :
  (∀ R C dy ts sd ed pr,
     max_people_per_slot (mkSettings (Some R) (Some C) dy ts sd ed pr)
     = R * (C + 1))
  ∧ (∀ dy ts sd ed pr,
       max_people_per_slot (mkSettings (Some 5) (Some 6) dy ts sd ed pr) = 35)
  ∧ (∀ dy ts sd ed pr,
       max_people_per_slot (mkSettings None None dy ts sd ed pr) = 35).
Proof. repeat split. Qed.

Lemma reject_rejected m w :
  rejected_at_boundary w (reject m (with_settings w)).
Proof. rewrite reject_run. repeat split. by exists m. Qed.




(** *** Availability *)

Lemma find_rafts_of_slot_run slot w :
  find_rafts_of_slot slot w = (Returned (rafts_of_slot (db w) slot), w).
Proof. reflexivity. Qed.

Lemma availability_loop_run total_capacity slots : ∀ data w,
  availability_loop total_capacity slots data w
  = (Returned (availability_data total_capacity (db w) slots data), w).
Proof.
  induction slots as [|slot slots IH]; intros data w; [done|].
  cbn [availability_loop].
  rewrite (bind_run _ _ _ _ _ (find_rafts_of_slot_run slot w)).
  apply IH.
Qed.

Lemma availability_data_cons total_capacity d s slots data :
  availability_data total_capacity d (s :: slots) data
  = availability_data total_capacity d slots
      (<[s := slot_availability total_capacity (rafts_of_slot d s)]> data).
Proof. reflexivity. Qed.

Lemma availability_data_other total_capacity d slots : ∀ data slot,
  slot ∉ slots →
  availability_data total_capacity d slots data !! slot = data !! slot.
Proof.
  induction slots as [|s slots IH]; intros data slot Hnot; [done|].
  apply not_elem_of_cons in Hnot as [Hne Hnot].
  rewrite availability_data_cons, IH by done. by rewrite lookup_insert_ne.
Qed.

Lemma availability_data_lookup total_capacity d slots : ∀ data slot,
  slot ∈ slots →
  availability_data total_capacity d slots data !! slot
  = Some (slot_availability total_capacity (rafts_of_slot d slot)).
Proof.
  induction slots as [|s slots IH]; intros data slot Hin.
  { by apply elem_of_nil in Hin. }
  rewrite availability_data_cons.
  destruct (decide (slot ∈ slots)) as [Hlater|Hlast]; [by apply IH|].
  apply elem_of_cons in Hin as [->|?]; [|done].
  rewrite availability_data_other by done. apply lookup_insert_eq.
Qed.

Lemma round_half_even_floor n d : n / d ≤ round_half_even n d.
Proof.
  unfold round_half_even.
  destruct (2 * (n mod d) <? d); [lia|].
  destruct (d <? 2 * (n mod d)); [lia|].
  destruct (Z.even (n / d)); lia.
Qed.

Lemma round_half_even_ge n d k :
  0 < d → k * d ≤ n → k ≤ round_half_even n d.
Proof.
  intros Hd Hn. pose proof (round_half_even_floor n d).
  assert (k ≤ n / d); [|lia].
  apply Z.div_le_lower_bound; lia.
Qed.

Lemma round_half_even_gt n d k :
  0 < d → (2 * k + 1) * d < 2 * n → k < round_half_even n d.
Proof.
  intros Hd Hn. pose proof (round_half_even_floor n d) as Hfloor.
  assert (k ≤ n / d) as Hk by (apply Z.div_le_lower_bound; lia).
  destruct (decide (k = n / d)) as [Heq|]; [|lia].
  pose proof (Z.div_mod n d ltac:(lia)) as Hdm.
  unfold round_half_even. rewrite <- Heq.
  assert ((2 * (n mod d) <? d) = false) as -> by (apply Z.ltb_ge; nia).
  assert ((d <? 2 * (n mod d)) = true) as -> by (apply Z.ltb_lt; nia).
  lia.
Qed.

Lemma py_round2_percent o t :
  0 < t →
  py_round2 (inject_Z o / inject_Z t * 100)
  = (round_half_even (o * 10000) t # 100)%Q.
Proof.
  intros Ht. destruct t as [|p|p]; try lia.
  unfold py_round2, Qdiv, Qmult, Qinv, inject_Z. cbn [Qnum Qden].
  f_equal. rewrite Pos.mul_1_r. cbn [Pos.mul]. f_equal. lia.
Qed.

(** C10, amended. For every slot of the settings, the availability
    endpoint takes [rafts_per_slot * capacity] as the slot's total
    capacity, the overflow seats left out, and reports
    [available = max(total_capacity - total_occupancy, 0)], which is never
    negative.  When the occupancy is [rafts_per_slot * (capacity + 1)],
    with both settings positive, [available] is 0 and [percent_full] is at
    least 100; it exceeds 100 when [capacity] is below 20000 (above that,
    rounding to two decimals can give 100.0 exactly). *)
Theorem availability_never_negative (w : World) (r c : Z) :
  rafts_per_slot (current_settings w) = Some r →
  capacity (current_settings w) = Some c →
  ∃ data,
    availability w = (Returned (Jsonify data), with_settings w)
    ∧ ∀ slot, slot ∈ default [] (time_slots (current_settings w)) →
        ∃ entry, data !! slot = Some entry
          ∧ available entry = Z.max (r * c - slot_occupancy (db w) slot) 0
          ∧ 0 ≤ available entry
          ∧ (0 < r → 0 < c → slot_occupancy (db w) slot = r * (c + 1) →
             available entry = 0
             ∧ (100 <= percent_full entry)%Q
             ∧ (c < 20000 → (100 < percent_full entry)%Q)).
Proof.
  intros Hr Hc. eexists. split.
  - unfold BookingRoutes.availability.
    rewrite (bind_run _ _ _ _ _ (get_settings_run w)). rewrite Hr, Hc.
    rewrite (bind_run _ _ _ _ _ (getitem_run _ _ _)).
    rewrite (bind_run _ _ _ _ _ (getitem_run _ _ _)).
    rewrite (bind_run _ _ _ _ _ (availability_loop_run _ _ _ _)).
    reflexivity.
  - intros slot Hslot. eexists. split.
    { cbn [db with_settings]. by apply availability_data_lookup. }
    cbn [available percent_full slot_availability].
    fold (rafts_of_slot (db w) slot). fold (slot_occupancy (db w) slot).
    split; [done|]. split; [lia|].
    intros Hrpos Hcpos Hocc. rewrite Hocc.
    assert (0 < r * c) as Htc by nia.
    assert ((0 <? r * c) = true) as -> by by apply Z.ltb_lt.
    rewrite py_round2_percent by done.
    split; [nia|]. split.
    + pose proof (round_half_even_ge (r * (c + 1) * 10000) (r * c) 10000 Htc
                    ltac:(nia)).
      unfold Qle. cbn [Qnum Qden]. lia.
    + intros Hsmall.
      pose proof (round_half_even_gt (r * (c + 1) * 10000) (r * c) 10000 Htc
                    ltac:(nia)).
      unfold Qlt. cbn [Qnum Qden]. lia.
Qed.

(** *** Settings with missing fields *)

(** A validated POST under settings without [rafts_per_slot] passes the
    group size check, which falls back on 5, and then fails on
    [settings['rafts_per_slot']]: nothing is called, nothing is stored. *)
Lemma book_key_error_without_rafts_per_slot
    (today : date) (request : Request) (w : World) (bs : string) (d n : Z) :
  let settings := current_settings w in
  method request = POST →
  form request !! "booking_date" = Some bs →
  strptime_date bs = Some d →
  min_date settings today ≤ d ≤ max_date settings today →
  py_int (form request !! "group_size") = Some n →
  1 ≤ n ≤ max_people_per_slot settings →
  rafts_per_slot settings = None →
  book today request w = (Raised (KeyError "rafts_per_slot"), with_settings w).
Proof.
  intros settings Hpost Hbs Hd Hwin Hn Hsize Hr.
  unfold min_date, max_date in Hwin.
  unfold BookingRoutes.book.
  rewrite (bind_run _ _ _ _ _ (get_settings_run w)). fold settings.
  destruct (booking_window settings today) as [sd ed].
  rewrite Hpost, Hbs. cbn [fst snd] in Hwin.
  assert (str_truthy (Some bs) = true) as ->.
  { apply (str_truthy_parsed (Some bs) d). done. }
  cbn [negb]. rewrite Hd.
  assert ((d <? sd `max` today) || (ed <? d) = false) as ->.
  { apply orb_false_iff. rewrite !Z.ltb_ge. lia. }
  rewrite Hn.
  assert ((n <? 1) || (max_people_per_slot settings <? n) = false) as ->.
  { apply orb_false_iff. rewrite !Z.ltb_ge. lia. }
  rewrite Hr. reflexivity.
Qed.

(** C9, on the code. With settings that lack [rafts_per_slot] (and [days]),
    the window falls back on 30 days and the group size limit on 5 rafts,
    but a valid booking of four people for 2025-01-20 raises
    [KeyError: 'rafts_per_slot'], and so does the availability endpoint;
    neither default is used there. *)
Theorem booking_flow_raises_on_missing_rafts_per_slot :
  book Scenario.today (Scenario.post "2025-01-20" "4") Scenario.partial_world
  = (Raised (KeyError "rafts_per_slot"), Scenario.partial_world)
  ∧ availability Scenario.partial_world
    = (Raised (KeyError "rafts_per_slot"), Scenario.partial_world).
Proof. split; vm_compute; reflexivity. Qed.

End Handlers.

(** *** The handlers on the sample data *)

#[local] Abbreviation book_model :=
  (book AllocationLogic.load_settings RaftModel.ensure_rafts_for_date_slot
     AllocationLogic.allocate_raft
     (AmountCalculator.calculate_total_amount Scenario.rate)
     BookingModel.create_booking).
#[local] Abbreviation settings_model :=
  (current_settings AllocationLogic.load_settings).
#[local] Abbreviation with_settings_model :=
  (with_settings AllocationLogic.load_settings).




(** Seven people on each of five six-seat rafts: nothing is available and
    the slot is more than 100 percent full. *)
Lemma availability_never_negative_witness :
  rafts_per_slot (settings_model Scenario.crowded_world) = Some 5
  ∧ capacity (settings_model Scenario.crowded_world) = Some 6
  ∧ ∃ data,
      availability AllocationLogic.load_settings Scenario.crowded_world
      = (Returned (Jsonify data), with_settings_model Scenario.crowded_world)
      ∧ ∀ slot,
          slot ∈ default [] (time_slots (settings_model Scenario.crowded_world)) →
          ∃ entry, data !! slot = Some entry
            ∧ available entry
              = Z.max (5 * 6 - slot_occupancy (db Scenario.crowded_world) slot) 0
            ∧ 0 ≤ available entry
            ∧ (0 < 5 → 0 < 6 →
               slot_occupancy (db Scenario.crowded_world) slot = 5 * (6 + 1) →
               available entry = 0
               ∧ (100 <= percent_full entry)%Q
               ∧ (6 < 20000 → (100 < percent_full entry)%Q)).
Proof.
  assert (H1 : rafts_per_slot (settings_model Scenario.crowded_world) = Some 5)
    by reflexivity.
  assert (H2 : capacity (settings_model Scenario.crowded_world) = Some 6)
    by reflexivity.
  exact (conj H1 (conj H2
           (availability_never_negative AllocationLogic.load_settings
              Scenario.crowded_world 5 6 H1 H2))).
Defined.

(** C10 as stated fails for a large capacity: with one raft of 100000
    seats holding 100001 people, the occupancy is
    [rafts_per_slot * (capacity + 1)], and [percent_full] is
    [round(100.001, 2)], which is 100.0 and does not exceed 100. *)
Lemma availability_percent_full_counterexample :
  slot_occupancy (db Scenario.large_world) "morning" = 1 * (100000 + 1)
  ∧ ∃ data entry,
      availability AllocationLogic.load_settings Scenario.large_world
      = (Returned (Jsonify data), Scenario.large_world)
      ∧ data !! "morning" = Some entry
      ∧ available entry = 0
      ∧ percent_full entry = (10000 # 100)%Q
      ∧ ¬ (100 < percent_full entry)%Q.
Proof.
  split; [by vm_compute|].
  exists {["morning" := mkSlotAvailability 0 (10000 # 100)]},
         (mkSlotAvailability 0 (10000 # 100)).
  split; [vm_compute; reflexivity|].
  split; [vm_compute; reflexivity|].
  split; [done|]. split; [done|].
  cbn [percent_full]. unfold Qlt. cbn [Qnum Qden]. lia.
Qed.

End BookingFacts.

(** * Further properties of the code *)

(** ** app.py: the phone number filter and the user loader *)

Module AppFacts.
Import App.

Lemma list_ascii_of_string_app (a b : string) :
  list_ascii_of_string (a ++ b)
  = (list_ascii_of_string a ++ list_ascii_of_string b)%list.
Proof.
  induction a as [|c a IH]; [done|].
  change (String c a ++ b) with (String c (a ++ b)).
  cbn [list_ascii_of_string]. by rewrite IH.
Qed.

Lemma str_digits_app (a b : string) :
  str_digits (a ++ b) = (str_digits a ++ str_digits b)%list.
Proof. unfold str_digits. by rewrite list_ascii_of_string_app, filter_app. Qed.

Lemma str_digits_all (s : string) :
  Forall (λ c, is_digit c = true) (str_digits s).
Proof.
  unfold str_digits. apply Forall_forall. intros c Hc.
  by apply list_elem_of_filter in Hc as [? _].
Qed.

Lemma filter_all {A} (P : A → Prop) `{∀ x, Decision (P x)} (l : list A) :
  Forall P l → filter P l = l.
Proof.
  induction 1 as [|x l Hx _ IH]; [done|].
  by rewrite filter_cons_True, IH.
Qed.

Lemma str_digits_slice a b (digits : list ascii) :
  Forall (λ c, is_digit c = true) digits →
  str_digits (slice a b digits) = take (b - a) (drop a digits).
Proof.
  intros Hall. unfold str_digits, slice.
  rewrite list_ascii_of_string_of_list_ascii. apply filter_all.
  by apply Forall_take, Forall_drop.
Qed.

Lemma length_slice a b (digits : list ascii) :
  (b ≤ length digits)%nat →
  String.length (slice a b digits) = (b - a)%nat.
Proof.
  intros Hb. unfold slice.
  rewrite <- (list_ascii_of_string_of_list_ascii (take _ _)) at 1.
  assert (∀ s, String.length s = length (list_ascii_of_string s)) as Hlen.
  { induction s as [|c s IH]; [done|]. cbn. by rewrite IH. }
  rewrite Hlen, !list_ascii_of_string_of_list_ascii.
  rewrite length_take, length_drop. lia.
Qed.

Lemma string_length_app (a b : string) :
  String.length (a ++ b) = (String.length a + String.length b)%nat.
Proof.
  induction a as [|c a IH]; [done|].
  change (String c a ++ b) with (String c (a ++ b)).
  cbn [String.length]. by rewrite IH.
Qed.

(** The text for a number of ten digits, and for eleven digits. *)
Lemma format_phone_ten (s : string) :
  length (str_digits s) = 10%nat →
  format_phone (Some s)
  = "(" ++ slice 0 3 (str_digits s) ++ ") " ++ slice 3 6 (str_digits s) ++ "-"
    ++ slice 6 10 (str_digits s).
Proof.
  intros Hlen. unfold format_phone.
  assert (s ≠ "") as Hne by (intros ->; done).
  assert (str_truthy (Some s) = true) as ->.
  { cbn. by apply negb_true_iff, String.eqb_neq. }
  cbn [negb]. by rewrite Hlen.
Qed.

Lemma format_phone_eleven (s : string) :
  length (str_digits s) = 11%nat →
  head (str_digits s) = Some "1"%char →
  format_phone (Some s)
  = "+1 (" ++ slice 1 4 (str_digits s) ++ ") " ++ slice 4 7 (str_digits s)
    ++ "-" ++ slice 7 11 (str_digits s).
Proof.
  intros Hlen Hhead. unfold format_phone.
  assert (s ≠ "") as Hne by (intros ->; done).
  assert (str_truthy (Some s) = true) as ->.
  { cbn. by apply negb_true_iff, String.eqb_neq. }
  cbn [negb]. rewrite Hlen. cbn [Nat.eqb andb].
  by rewrite bool_decide_eq_true_2.
Qed.

Lemma ten_digits_split (digits : list ascii) :
  length digits = 10%nat →
  (take 3 digits ++ take 3 (drop 3 digits) ++ take 4 (drop 6 digits))%list
  = digits.
Proof.
  intros H. do 11 (destruct digits as [|? digits]; try done).
Qed.

Lemma eleven_digits_split (digits : list ascii) :
  length digits = 11%nat →
  head digits = Some "1"%char →
  ("1"%char :: take 3 (drop 1 digits) ++ take 3 (drop 4 digits)
   ++ take 4 (drop 7 digits))%list
  = digits.
Proof.
  intros H Hhead. do 12 (destruct digits as [|? digits]; try done).
  cbn in Hhead. by injection Hhead as ->.
Qed.

Lemma str_digits_format_phone (phone : option string) :
  str_digits (format_phone phone) = str_digits (default "" phone).
Proof.
  destruct phone as [s|]; [|done]. cbn [default from_option id].
  destruct (decide (length (str_digits s) = 10%nat)) as [H10|H10].
  { rewrite format_phone_ten by done.
    pose proof (str_digits_all s) as Hall.
    rewrite !str_digits_app, !str_digits_slice by done.
    change (str_digits "(") with (@nil ascii).
    change (str_digits ") ") with (@nil ascii).
    change (str_digits "-") with (@nil ascii).
    cbn [app Nat.sub]. rewrite drop_0. by apply ten_digits_split. }
  destruct (decide (length (str_digits s) = 11%nat
                    ∧ head (str_digits s) = Some "1"%char)) as [[H11 Hh]|H11].
  { rewrite format_phone_eleven by done.
    pose proof (str_digits_all s) as Hall.
    rewrite !str_digits_app, !str_digits_slice by done.
    change (str_digits "+1 (") with ["1"%char].
    change (str_digits ") ") with (@nil ascii).
    change (str_digits "-") with (@nil ascii).
    cbn [app Nat.sub]. by apply eleven_digits_split. }
  unfold format_phone. destruct (negb (str_truthy (Some s))) eqn:Hs.
  { apply negb_true_iff in Hs. cbn in Hs. apply negb_false_iff in Hs.
    by apply String.eqb_eq in Hs as ->. }
  apply Nat.eqb_neq in H10. rewrite H10.
  destruct (length (str_digits s) =? 11)%nat eqn:Hl; [|done].
  apply Nat.eqb_eq in Hl.
  rewrite bool_decide_eq_false_2; [done|]. intros Hh. by apply H11.
Qed.

(** A text that is not empty and has neither ten digits nor eleven digits
    led by a 1 is returned as it is. *)
Lemma format_phone_other (s : string) :
  s ≠ "" →
  length (str_digits s) ≠ 10%nat →
  ¬ (length (str_digits s) = 11%nat ∧ head (str_digits s) = Some "1"%char) →
  format_phone (Some s) = s.
Proof.
  intros Hne H10 H11. unfold format_phone.
  assert (str_truthy (Some s) = true) as ->.
  { cbn. by apply negb_true_iff, String.eqb_neq. }
  cbn [negb]. apply Nat.eqb_neq in H10. rewrite H10.
  destruct (length (str_digits s) =? 11)%nat eqn:Hl; [|done].
  apply Nat.eqb_eq in Hl.
  rewrite bool_decide_eq_false_2; [done|]. intros Hh. by apply H11.
Qed.

(** X1. The phone filter is idempotent: formatting an already formatted
    number gives the same text, for every input. *)
Theorem format_phone_idempotent (phone : option string) :
  format_phone (Some (format_phone phone)) = format_phone phone.
Proof.
  destruct phone as [s|]; [|done].
  pose proof (str_digits_format_phone (Some s)) as Hd.
  cbn [default from_option id] in Hd.
  destruct (decide (length (str_digits s) = 10%nat)) as [H10|H10].
  { rewrite (format_phone_ten (format_phone (Some s))) by by rewrite Hd.
    rewrite Hd. by rewrite <- format_phone_ten. }
  destruct (decide (length (str_digits s) = 11%nat
                    ∧ head (str_digits s) = Some "1"%char)) as [[H11 Hh]|H11].
  { rewrite (format_phone_eleven (format_phone (Some s))) by by rewrite Hd.
    rewrite Hd. by rewrite <- format_phone_eleven. }
  destruct (decide (s = "")) as [->|Hne]; [done|].
  rewrite (format_phone_other s) by done. by apply format_phone_other.
Qed.

(** X2. Formatting never adds, drops or reorders a digit: the digits of
    the formatted text are the digits of the input ([None] and the empty
    string, rendered as a dash, have none). *)
Theorem format_phone_keeps_digits (phone : option string) :
  str_digits (format_phone phone) = str_digits (default "" phone).
Proof. apply str_digits_format_phone. Qed.



(** X4. The user loader returns a user exactly when the lookup found that
    user and the user is active, and then prints nothing; a lookup or an
    activity check that raises loads nobody and prints one line. *)
Theorem load_user_only_active
    (User : Type) (find_by_id : DB → string → string + option User)
    (is_active : User → string + bool) (d : DB) (user_id : string) :
  (∀ u, (load_user User find_by_id is_active d user_id).1 = Some u
        ↔ find_by_id d user_id = inr (Some u) ∧ is_active u = inr true)
  ∧ (∀ u, (load_user User find_by_id is_active d user_id).1 = Some u →
          (load_user User find_by_id is_active d user_id).2 = [])
  ∧ (∀ e, find_by_id d user_id = inl e
          ∨ (∃ u, find_by_id d user_id = inr (Some u) ∧ is_active u = inl e) →
          load_user User find_by_id is_active d user_id
          = (None, [error_line user_id e])).
Proof.
  unfold load_user. split; [|split].
  - intros u. split.
    + destruct (find_by_id d user_id) as [e|[u'|]]; cbn; try done.
      destruct (is_active u') as [e|[]] eqn:Ha; cbn; try done.
      by intros [= ->].
    + intros [Hf Ha]. by rewrite Hf, Ha.
  - intros u. destruct (find_by_id d user_id) as [e|[u'|]]; cbn; try done.
    by destruct (is_active u') as [e|[]].
  - intros e [Hf|(u & Hf & Ha)]; rewrite Hf; [done|]. by rewrite Ha.
Qed.

End AppFacts.

(** ** routes/booking_routes.py: the settings cache and [book] *)

Module BookingMoreFacts.
Import BookingRoutes BookingOutcome BookingFacts.

Section Handlers.
Variable load_settings : DB → Settings.
Variable ensure_rafts_for_date_slot : DB → string → option string → Z → Z → DB.
Variable allocate_raft :
  DB → option Z → string → option string → Z → AllocResult * DB.
Variable calculate_total_amount : Settings → string → Z → AmountCalc.
Variable create_booking : DB → BookingArgs → BookingId * DB.

#[local] Abbreviation book :=
  (book load_settings ensure_rafts_for_date_slot allocate_raft
     calculate_total_amount create_booking).
#[local] Abbreviation get_settings := (get_settings load_settings).
#[local] Abbreviation current_settings := (current_settings load_settings).
#[local] Abbreviation with_settings := (with_settings load_settings).
#[local] Abbreviation allocation :=
  (allocation ensure_rafts_for_date_slot allocate_raft).
#[local] Abbreviation stored_args :=
  (stored_args ensure_rafts_for_date_slot allocate_raft calculate_total_amount).
#[local] Abbreviation stored :=
  (stored ensure_rafts_for_date_slot allocate_raft calculate_total_amount
     create_booking).
#[local] Abbreviation booking_calls :=
  (booking_calls ensure_rafts_for_date_slot allocate_raft
     calculate_total_amount).

Lemma min_date_not_before_today settings today :
  today ≤ min_date settings today.
Proof. unfold min_date. lia. Qed.

(** A POST either is sent back with one error message or passes every
    check. *)
Lemma book_post_cases today request w :
  method request = POST →
  (∃ m, book today request w = reject m (with_settings w))
  ∨ (∃ bs d n, validated (current_settings w) today request bs d n).
Proof.
  intros Hpost. unfold BookingRoutes.book, validated, min_date, max_date.
  rewrite (bind_run _ _ _ _ _ (get_settings_run _ w)).
  destruct (booking_window (current_settings w) today) as [sd ed].
  rewrite Hpost. cbn [fst snd].
  destruct (form request !! "booking_date") as [bs|] eqn:Hbs;
    [|left; by eexists].
  destruct (negb _); [left; by eexists|].
  destruct (strptime_date bs) as [d|] eqn:Hd; [|left; by eexists].
  destruct ((d <? sd `max` today) || (ed <? d)) eqn:Hwin; [left; by eexists|].
  destruct (py_int (form request !! "group_size")) as [n|] eqn:Hn;
    [|left; by eexists].
  destruct ((n <? 1) || (_ <? n)) eqn:Hsize; [left; by eexists|].
  right. exists bs, d, n.
  apply orb_false_iff in Hwin as [H1 H2], Hsize as [H3 H4].
  apply Z.ltb_ge in H1, H2, H3, H4. repeat split; try done; lia.
Qed.

(** Past the checks, [book] reads the two settings it passes on. *)
Lemma book_validated_run today request w bs d n :
  method request = POST →
  validated (current_settings w) today request bs d n →
  book today request w
  = (rafts_per_slot ← getitem "rafts_per_slot"
                        (rafts_per_slot (current_settings w));
     capacity ← getitem "capacity" (capacity (current_settings w));
     call_db (CallEnsureRafts bs (form request !! "slot") rafts_per_slot capacity)
       (λ d, ((), ensure_rafts_for_date_slot d bs (form request !! "slot")
                    rafts_per_slot capacity));;
     result ← call_db (CallAllocateRaft bs (form request !! "slot") n)
       (λ d, allocate_raft d None bs (form request !! "slot") n);
     amount_calc ← call_pure
       (CallCalculateTotalAmount (current_settings w) bs n)
       (calculate_total_amount (current_settings w) bs n);
     booking_id ←
       (call_db (CallCreateBooking (booking_args request bs n result amount_calc))
          (λ d, create_booking d (booking_args request bs n result amount_calc))
        ≫= λ booking_id,
          flash (outcome_flash result).1 (outcome_flash result).2;;
          mret booking_id);
     mret (RedirectConfirmation booking_id)) (with_settings w).
Proof.
  intros Hpost (Hbs & Hd & Hwin & Hn & Hsize).
  unfold min_date, max_date in Hwin.
  unfold BookingRoutes.book.
  rewrite (bind_run _ _ _ _ _ (get_settings_run _ w)).
  destruct (booking_window (current_settings w) today) as [sd ed].
  rewrite Hpost, Hbs. cbn [fst snd] in Hwin.
  assert (str_truthy (Some bs) = true) as ->.
  { apply (str_truthy_parsed (Some bs) d). done. }
  cbn [negb]. rewrite Hd.
  assert ((d <? sd `max` today) || (ed <? d) = false) as ->.
  { apply orb_false_iff. rewrite !Z.ltb_ge. lia. }
  rewrite Hn.
  assert ((n <? 1) || (max_people_per_slot (current_settings w) <? n) = false)
    as ->.
  { apply orb_false_iff. rewrite !Z.ltb_ge. lia. }
  unfold mbind, Handler_bind.
  destruct (getitem "rafts_per_slot" _ _) as [[r|e] w1]; [|done].
  destruct (getitem "capacity" _ _) as [[c|e] w2]; [|done].
  destruct (call_db _ _ w2) as [[[]|e] w3]; [|done].
  destruct (call_db _ _ w3) as [[result|e] w4]; [|done].
  destruct (call_pure _ _ w4) as [[amount|e] w5]; [|done].
  unfold booking_args, outcome_flash, is_confirmed.
  by destruct (bool_decide (res_status result = Some "Confirmed")).
Qed.

(** With both settings at hand, a validated booking is stored. *)
Lemma book_accepted_run today request w bs d n r c :
  method request = POST →
  validated (current_settings w) today request bs d n →
  rafts_per_slot (current_settings w) = Some r →
  capacity (current_settings w) = Some c →
  book today request w
  = (Returned (RedirectConfirmation
                 (stored w (current_settings w) request bs n r c).1),
     mkWorld (stored w (current_settings w) request bs n r c).2
       (Some (current_settings w))
       (flashes w ++ [outcome_flash (allocation w request bs n r c).1])
       (calls w ++ booking_calls w (current_settings w) request bs n r c)).
Proof.
  intros Hpost Hval Hr Hc.
  rewrite (book_validated_run _ _ _ _ _ _ Hpost Hval), Hr, Hc.
  rewrite (bind_run _ _ _ _ _ (getitem_run _ _ _)).
  rewrite (bind_run _ _ _ _ _ (getitem_run _ _ _)).
  rewrite (bind_run _ _ _ _ _ (call_db_run _ _ _)).
  rewrite (bind_run _ _ _ _ _ (call_db_run _ _ _)).
  rewrite (bind_run _ _ _ _ _ (call_pure_run _ _ _)).
  rewrite bind_assoc, (bind_run _ _ _ _ _ (call_db_run _ _ _)).
  rewrite bind_assoc, (bind_run _ _ _ _ _ (flash_run _ _ _)).
  cbn [mret Handler_ret fst snd db settings_cache flashes calls
       BookingRoutes.with_settings].
  unfold BookingOutcome.stored, BookingOutcome.stored_args,
    BookingOutcome.allocation, BookingOutcome.ensured_store,
    BookingOutcome.booking_calls.
  rewrite <- !app_assoc. cbn [app].
  by destruct (outcome_flash _).
Qed.

Lemma book_window_reject today request w bs d :
  method request = POST →
  form request !! "booking_date" = Some bs →
  strptime_date bs = Some d →
  d < min_date (current_settings w) today
  ∨ max_date (current_settings w) today < d →
  book today request w
  = reject (DateWindowMessage (min_date (current_settings w) today)
                              (max_date (current_settings w) today))
           (with_settings w).
Proof.
  intros Hpost Hbs Hd Hout. unfold min_date, max_date in *.
  unfold BookingRoutes.book.
  rewrite (bind_run _ _ _ _ _ (get_settings_run _ w)).
  destruct (booking_window (current_settings w) today) as [sd ed].
  rewrite Hpost, Hbs. cbn [fst snd] in *.
  assert (str_truthy (Some bs) = true) as ->.
  { apply (str_truthy_parsed (Some bs) d). done. }
  cbn [negb]. rewrite Hd.
  assert ((d <? sd `max` today) || (ed <? d) = true) as ->; [|done].
  apply orb_true_iff. rewrite !Z.ltb_lt. done.
Qed.







Lemma current_settings_with_settings (w : World) :
  current_settings (with_settings w) = current_settings w.
Proof.
  unfold BookingRoutes.current_settings at 1.
  cbn [settings_cache db BookingRoutes.with_settings].
  destruct (settings_truthy (current_settings w)) eqn:Ht; [done|].
  unfold BookingRoutes.current_settings in *.
  destruct (settings_cache w) as [s|]; [|done].
  destruct (settings_truthy s) eqn:Hs; [congruence|done].
Qed.

(** X11. Fetching the settings twice is fetching them once: the second
    call returns the same settings and leaves the world as the first call
    left it. *)
Theorem get_settings_twice (w : World) :
  get_settings (get_settings w).2 = get_settings w.
Proof.
  rewrite (get_settings_run _ w). cbn [snd].
  rewrite (get_settings_run _ (with_settings w)).
  rewrite current_settings_with_settings. f_equal.
  unfold BookingRoutes.with_settings at 1.
  rewrite current_settings_with_settings. reflexivity.
Qed.

(** X12. The cache is never refreshed: once a call has cached a non-empty
    settings dictionary, every later call returns that dictionary and
    changes nothing, whatever the store holds by then. *)
Theorem get_settings_keeps_cached_settings (w w' : World) :
  settings_truthy (current_settings w) = true →
  settings_cache w' = settings_cache (get_settings w).2 →
  get_settings w' = (Returned (current_settings w), w').
Proof.
  intros Ht Hcache. rewrite (get_settings_run _ w) in Hcache.
  cbn [snd settings_cache BookingRoutes.with_settings] in Hcache.
  rewrite (get_settings_run _ w').
  unfold BookingRoutes.with_settings, BookingRoutes.current_settings at 1 2.
  rewrite Hcache, Ht. destruct w'. cbn in *. by rewrite Hcache.
Qed.

End Handlers.
End BookingMoreFacts.

(** ** routes/booking_routes.py: [availability] *)

Module AvailabilityFacts.
Import BookingRoutes BookingPages BookingFacts.

Section Handlers.
Variable load_settings : DB → Settings.

#[local] Abbreviation availability := (availability load_settings).
#[local] Abbreviation current_settings := (current_settings load_settings).
#[local] Abbreviation with_settings := (with_settings load_settings).

(** What [availability] returns, by the settings at hand. *)
Lemma availability_run (w : World) :
  availability w
  = match rafts_per_slot (current_settings w), capacity (current_settings w) with
    | Some r, Some c =>
        (Returned (Jsonify (availability_data (r * c) (db w)
                              (default [] (time_slots (current_settings w))) ∅)),
         with_settings w)
    | None, _ => (Raised (KeyError "rafts_per_slot"), with_settings w)
    | Some _, None => (Raised (KeyError "capacity"), with_settings w)
    end.
Proof.
  unfold BookingRoutes.availability.
  rewrite (bind_run _ _ _ _ _ (get_settings_run _ w)).
  destruct (rafts_per_slot (current_settings w)) as [r|]; [|done].
  rewrite (bind_run _ _ _ _ _ (getitem_run _ _ _)).
  destruct (capacity (current_settings w)) as [c|]; [|done].
  rewrite (bind_run _ _ _ _ _ (getitem_run _ _ _)).
  by rewrite (bind_run _ _ _ _ _ (availability_loop_run _ _ _ _)).
Qed.

Lemma availability_data_is_Some total_capacity d slots data slot :
  is_Some (availability_data total_capacity d slots data !! slot)
  ↔ slot ∈ slots ∨ is_Some (data !! slot).
Proof.
  destruct (decide (slot ∈ slots)) as [Hin|Hnot].
  - rewrite availability_data_lookup by done. split; [by left|eauto].
  - rewrite availability_data_other by done. split; [by right|by intros [|]].
Qed.

Lemma rafts_of_slot_redate f d slot :
  rafts_of_slot (mkDB (redate_raft f <$> rafts d) (bookings d) (settings_doc d))
                slot
  = redate_raft f <$> rafts_of_slot d slot.
Proof.
  unfold rafts_of_slot. cbn [rafts].
  induction (rafts d) as [|r rs IH]; [done|].
  rewrite fmap_cons.
  assert (raft_slot (redate_raft f r) = Some slot
          ∧ is_Some (raft_day (redate_raft f r))
          ↔ raft_slot r = Some slot ∧ is_Some (raft_day r)) as Hiff.
  { cbn. by rewrite fmap_is_Some. }
  destruct (decide (raft_slot r = Some slot ∧ is_Some (raft_day r))) as [Hr|Hr].
  - rewrite (filter_cons_True _ (redate_raft f r)) by by apply Hiff.
    rewrite filter_cons_True by done. by rewrite fmap_cons, IH.
  - rewrite (filter_cons_False _ (redate_raft f r)) by by rewrite Hiff.
    by rewrite filter_cons_False.
Qed.

Lemma slot_availability_redate f total_capacity rs :
  slot_availability total_capacity (redate_raft f <$> rs)
  = slot_availability total_capacity rs.
Proof.
  unfold slot_availability. by rewrite <- list_fmap_compose.
Qed.

Lemma availability_data_redate f total_capacity d slots : ∀ data,
  availability_data total_capacity
    (mkDB (redate_raft f <$> rafts d) (bookings d) (settings_doc d)) slots data
  = availability_data total_capacity d slots data.
Proof.
  induction slots as [|s slots IH]; intros data; [done|].
  rewrite !availability_data_cons, IH.
  by rewrite rafts_of_slot_redate, slot_availability_redate.
Qed.

Lemma round_half_even_le n d k :
  0 < d → n ≤ k * d → round_half_even n d ≤ k.
Proof.
  intros Hd Hn. unfold round_half_even.
  pose proof (Z.div_mod n d ltac:(lia)) as Hdm.
  pose proof (Z.mod_pos_bound n d Hd) as Hmod.
  assert (n / d ≤ k) as Hq by (apply Z.div_le_upper_bound; lia).
  destruct (decide (n / d = k)) as [Heq|Hne].
  - assert (n mod d = 0) as -> by nia.
    assert ((2 * 0 <? d) = true) as -> by (apply Z.ltb_lt; lia). lia.
  - destruct (2 * (n mod d) <? d); [lia|].
    destruct (d <? 2 * (n mod d)); [lia|].
    destruct (Z.even (n / d)); lia.
Qed.


(** X14. With both settings at hand, the answer has one entry per
    configured time slot and no other: a slot listed twice gets one entry,
    and without [time_slots] the answer is the empty object. *)
Theorem availability_has_one_entry_per_slot (w : World) (r c : Z) :
  rafts_per_slot (current_settings w) = Some r →
  capacity (current_settings w) = Some c →
  ∃ data,
    (availability w).1 = Returned (Jsonify data)
    ∧ (∀ slot, is_Some (data !! slot)
               ↔ slot ∈ default [] (time_slots (current_settings w)))
    ∧ (time_slots (current_settings w) = None → data = ∅).
Proof.
  intros Hr Hc. rewrite availability_run, Hr, Hc. eexists. split; [done|].
  split.
  - intros slot. rewrite availability_data_is_Some, lookup_empty.
    split; [intros [?|[? ?]]; done|by left].
  - by intros ->.
Qed.

(** X15. The report does not look at dates: moving the rafts to other
    days, under the same settings, leaves the answer unchanged, so the
    rafts of a slot are added up over all days. *)
Theorem availability_ignores_dates (f : string → string) (w : World) :
  current_settings (redate_world f w) = current_settings w →
  (availability (redate_world f w)).1 = (availability w).1.
Proof.
  intros Hs. rewrite !availability_run, Hs.
  destruct (rafts_per_slot (current_settings w)) as [r|]; [|done].
  destruct (capacity (current_settings w)) as [c|]; [|done].
  cbn [fst db redate_world]. by rewrite availability_data_redate.
Qed.

(** X16. While the occupancy of a slot is between 0 and its total
    capacity, the reported seats add up, [available + occupancy =
    rafts_per_slot * capacity], and [percent_full] is between 0 and 100. *)
Theorem availability_within_capacity (w : World) (r c : Z) (slot : string) :
  rafts_per_slot (current_settings w) = Some r →
  capacity (current_settings w) = Some c →
  slot ∈ default [] (time_slots (current_settings w)) →
  0 < r * c →
  0 ≤ slot_occupancy (db w) slot ≤ r * c →
  ∃ data entry,
    (availability w).1 = Returned (Jsonify data)
    ∧ data !! slot = Some entry
    ∧ available entry + slot_occupancy (db w) slot = r * c
    ∧ (0 <= percent_full entry)%Q ∧ (percent_full entry <= 100)%Q.
Proof.
  intros Hr Hc Hslot Htc Hocc. rewrite availability_run, Hr, Hc.
  eexists. eexists. split; [done|]. split.
  { by apply availability_data_lookup. }
  cbn [available percent_full slot_availability].
  fold (rafts_of_slot (db w) slot). fold (slot_occupancy (db w) slot).
  split; [lia|].
  assert ((0 <? r * c) = true) as -> by by apply Z.ltb_lt.
  rewrite py_round2_percent by done.
  pose proof (round_half_even_ge (slot_occupancy (db w) slot * 10000) (r * c) 0
                Htc ltac:(lia)).
  pose proof (round_half_even_le (slot_occupancy (db w) slot * 10000) (r * c)
                10000 Htc ltac:(lia)).
  unfold Qle. cbn [Qnum Qden]. lia.
Qed.

(** X17. A total capacity of zero or less does not divide by zero: with
    [rafts_per_slot * capacity <= 0] every slot is reported 0 percent
    full, and [available] is 0 unless the occupancy is negative. *)
Theorem availability_without_capacity (w : World) (r c : Z) (slot : string) :
  rafts_per_slot (current_settings w) = Some r →
  capacity (current_settings w) = Some c →
  slot ∈ default [] (time_slots (current_settings w)) →
  r * c ≤ 0 →
  ∃ data entry,
    (availability w).1 = Returned (Jsonify data)
    ∧ data !! slot = Some entry
    ∧ percent_full entry = 0%Q
    ∧ (0 ≤ slot_occupancy (db w) slot → available entry = 0).
Proof.
  intros Hr Hc Hslot Htc. rewrite availability_run, Hr, Hc.
  eexists. eexists. split; [done|]. split.
  { by apply availability_data_lookup. }
  cbn [available percent_full slot_availability].
  fold (rafts_of_slot (db w) slot). fold (slot_occupancy (db w) slot).
  assert ((0 <? r * c) = false) as -> by by apply Z.ltb_ge.
  split; [done|]. lia.
Qed.

End Handlers.
End AvailabilityFacts.

(** ** routes/booking_routes.py: the confirmation and tracking pages *)

Module BookingPagesFacts.
Import BookingRoutes BookingPages BookingFacts.

(** X18. The confirmation page only reads the store and shows a booking
    only if it carries the requested identifier; it shows one whenever the
    collection holds a booking with that identifier, and otherwise (also
    when the identifier is malformed) flashes "Booking not found" and
    redirects to the home page. *)
Theorem booking_confirmation_shows_requested_booking
    (ObjectId : string → option BookingId) (id_str : string) (w : World) :
  let out := booking_confirmation ObjectId id_str w in
  db out.2 = db w ∧ calls out.2 = calls w
  ∧ (∀ b, out.1 = Returned (RenderBookingConfirmation b) →
          ObjectId id_str = Some (booking_id b) ∧ b ∈ bookings (db w)
          ∧ out.2 = w)
  ∧ (∀ b, b ∈ bookings (db w) → ObjectId id_str = Some (booking_id b) →
          ∃ b', out.1 = Returned (RenderBookingConfirmation b'))
  ∧ ((∀ b, b ∈ bookings (db w) → ObjectId id_str ≠ Some (booking_id b)) →
     out = (Returned RedirectHome,
            mkWorld (db w) (settings_cache w)
              (flashes w ++ [(Text "Booking not found", "error")]) (calls w))).
Proof.
  intros out. unfold out, booking_confirmation, bookings_find_one,
    find_one_booking.
  destruct (ObjectId id_str) as [id|].
  - rewrite (bind_run _ _ w (find (λ b, bool_decide (booking_id b = id))
                               (bookings (db w))) w) by done.
    destruct (find _ (bookings (db w))) as [b|] eqn:Hfind.
    + apply find_some in Hfind as [Hin Hid].
      apply bool_decide_eq_true in Hid. apply list_elem_of_In in Hin.
      cbn. split; [done|]. split; [done|]. split; [|split].
      * intros b' [= Heq]. by subst.
      * eauto.
      * intros Hnone. destruct (Hnone b Hin). by subst.
    + pose proof (find_none _ _ Hfind) as Hnone.
      cbn. split; [done|]. split; [done|]. split; [done|]. split; [|done].
      intros b Hin [= Heq]. apply list_elem_of_In in Hin.
      specialize (Hnone b Hin). cbn in Hnone.
      by apply bool_decide_eq_false in Hnone.
  - rewrite (bind_run _ _ w None w) by done. cbn. repeat split; done.
Qed.

(** X19. The tracking page only reads the store.  A GET renders the form;
    a POST without an email or without a phone number (missing or empty)
    is answered with an error whatever the lookup would return; otherwise
    the page shows the first booking of the lookup for that email and
    phone, or flashes "No booking found for that contact." *)
Theorem track_booking_shows_latest_booking
    (find_latest_by_contact : DB → string → string → list Booking)
    (request : Request) (w : World) :
  let out := track_booking find_latest_by_contact request w in
  let sent_back (m : string) :=
    (Returned RedirectTrackBooking,
     mkWorld (db w) (settings_cache w) (flashes w ++ [(Text m, "error")])
       (calls w)) in
  db out.2 = db w ∧ calls out.2 = calls w
  ∧ (method request = GET → out = (Returned RenderTrackBooking, w))
  ∧ (method request = POST →
     str_truthy (form request !! "email") = false
     ∨ str_truthy (form request !! "phone") = false →
     out = sent_back "Please provide both email and phone number.")
  ∧ (∀ email phone,
       method request = POST →
       form request !! "email" = Some email → email ≠ "" →
       form request !! "phone" = Some phone → phone ≠ "" →
       out = match head (find_latest_by_contact (db w) email phone) with
             | Some booking => (Returned (RenderTrackBookingResult booking), w)
             | None => sent_back "No booking found for that contact."
             end).
Proof.
  intros out sent_back. unfold out, sent_back, track_booking.
  destruct (method request) eqn:Hm.
  { repeat split; try done. }
  destruct (negb (str_truthy (form request !! "email"))
            || negb (str_truthy (form request !! "phone"))) eqn:Hc.
  - repeat split; try done.
    intros email phone _ He Hne Hp Hnp. rewrite He, Hp in Hc. cbn in Hc.
    apply String.eqb_neq in Hne, Hnp. by rewrite Hne, Hnp in Hc.
  - apply orb_false_iff in Hc as [He Hp].
    apply negb_false_iff in He, Hp.
    rewrite (bind_run _ _ w (find_latest_by_contact (db w)
                               (default "" (form request !! "email"))
                               (default "" (form request !! "phone"))) w)
      by done.
    split; [by destruct (head _)|]. split; [by destruct (head _)|].
    split; [done|]. split.
    + intros _ [H|H]; congruence.
    + intros email phone _ Hemail _ Hphone _. rewrite Hemail, Hphone. cbn.
      by destruct (head _).
Qed.

End BookingPagesFacts.

(** ** The further properties on the sample data *)

Module SampleRuns.
Import BookingRoutes BookingOutcome BookingPages BookingFacts.

#[local] Abbreviation book_model :=
  (book AllocationLogic.load_settings RaftModel.ensure_rafts_for_date_slot
     AllocationLogic.allocate_raft
     (AmountCalculator.calculate_total_amount Scenario.rate)
     BookingModel.create_booking).
#[local] Abbreviation settings_model :=
  (current_settings AllocationLogic.load_settings).
#[local] Abbreviation with_settings_model :=
  (with_settings AllocationLogic.load_settings).
#[local] Abbreviation availability_model :=
  (availability AllocationLogic.load_settings).
#[local] Abbreviation stored_model :=
  (stored RaftModel.ensure_rafts_for_date_slot AllocationLogic.allocate_raft
     (AmountCalculator.calculate_total_amount Scenario.rate)
     BookingModel.create_booking).
#[local] Abbreviation stored_args_model :=
  (stored_args RaftModel.ensure_rafts_for_date_slot
     AllocationLogic.allocate_raft
     (AmountCalculator.calculate_total_amount Scenario.rate)).






(** The settings cached from the first store survive the change of the
    stored document. *)
Lemma get_settings_keeps_cached_settings_witness :
  settings_truthy (settings_model Scenario.world) = true
  ∧ settings_cache Samples.later_world
    = settings_cache
        (get_settings AllocationLogic.load_settings Scenario.world).2
  ∧ get_settings AllocationLogic.load_settings Samples.later_world
    = (Returned (settings_model Scenario.world), Samples.later_world).
Proof.
  assert (H1 : settings_truthy (settings_model Scenario.world) = true)
    by reflexivity.
  assert (H2 : settings_cache Samples.later_world
               = settings_cache
                   (get_settings AllocationLogic.load_settings
                      Scenario.world).2) by reflexivity.
  exact (conj H1 (conj H2
           (BookingMoreFacts.get_settings_keeps_cached_settings
              AllocationLogic.load_settings Scenario.world Samples.later_world
              H1 H2))).
Defined.

(** The two slots of the sample settings, on the crowded morning. *)
Lemma availability_has_one_entry_per_slot_witness :
  rafts_per_slot (settings_model Scenario.crowded_world) = Some 5
  ∧ capacity (settings_model Scenario.crowded_world) = Some 6
  ∧ ∃ data,
      (availability_model Scenario.crowded_world).1 = Returned (Jsonify data)
      ∧ (∀ slot, is_Some (data !! slot)
                 ↔ slot ∈ default []
                     (time_slots (settings_model Scenario.crowded_world)))
      ∧ (time_slots (settings_model Scenario.crowded_world) = None → data = ∅).
Proof.
  assert (H1 : rafts_per_slot (settings_model Scenario.crowded_world) = Some 5)
    by reflexivity.
  assert (H2 : capacity (settings_model Scenario.crowded_world) = Some 6)
    by reflexivity.
  exact (conj H1 (conj H2
           (AvailabilityFacts.availability_has_one_entry_per_slot
              AllocationLogic.load_settings Scenario.crowded_world 5 6 H1 H2))).
Defined.

(** The crowded morning moved to March reads the same. *)
Lemma availability_ignores_dates_witness :
  settings_model (redate_world Samples.to_march Scenario.crowded_world)
  = settings_model Scenario.crowded_world
  ∧ (availability_model
       (redate_world Samples.to_march Scenario.crowded_world)).1
    = (availability_model Scenario.crowded_world).1.
Proof.
  assert (H1 : settings_model
                 (redate_world Samples.to_march Scenario.crowded_world)
               = settings_model Scenario.crowded_world) by reflexivity.
  exact (conj H1
           (AvailabilityFacts.availability_ignores_dates
              AllocationLogic.load_settings Samples.to_march
              Scenario.crowded_world H1)).
Defined.

(** Fifteen people on thirty seats. *)
Lemma availability_within_capacity_witness :
  rafts_per_slot (settings_model Samples.half_full_world) = Some 5
  ∧ capacity (settings_model Samples.half_full_world) = Some 6
  ∧ "morning" ∈ default [] (time_slots (settings_model Samples.half_full_world))
  ∧ 0 < 5 * 6
  ∧ 0 ≤ slot_occupancy (db Samples.half_full_world) "morning" ≤ 5 * 6
  ∧ ∃ data entry,
      (availability_model Samples.half_full_world).1 = Returned (Jsonify data)
      ∧ data !! "morning" = Some entry
      ∧ available entry + slot_occupancy (db Samples.half_full_world) "morning"
        = 5 * 6
      ∧ (0 <= percent_full entry)%Q ∧ (percent_full entry <= 100)%Q.
Proof.
  assert (H1 : rafts_per_slot (settings_model Samples.half_full_world) = Some 5)
    by reflexivity.
  assert (H2 : capacity (settings_model Samples.half_full_world) = Some 6)
    by reflexivity.
  assert (H3 : "morning"
               ∈ default [] (time_slots (settings_model Samples.half_full_world))).
  { apply list_elem_of_here. }
  assert (H4 : 0 < 5 * 6) by lia.
  assert (H5 : 0 ≤ slot_occupancy (db Samples.half_full_world) "morning"
               ≤ 5 * 6).
  { split; apply Z.leb_le; vm_compute; reflexivity. }
  exact (conj H1 (conj H2 (conj H3 (conj H4 (conj H5
           (AvailabilityFacts.availability_within_capacity
              AllocationLogic.load_settings Samples.half_full_world 5 6
              "morning" H1 H2 H3 H4 H5)))))).
Defined.

(** No raft configured: nothing to divide by. *)
Lemma availability_without_capacity_witness :
  rafts_per_slot (settings_model Samples.no_raft_world) = Some 0
  ∧ capacity (settings_model Samples.no_raft_world) = Some 6
  ∧ "morning" ∈ default [] (time_slots (settings_model Samples.no_raft_world))
  ∧ 0 * 6 ≤ 0
  ∧ ∃ data entry,
      (availability_model Samples.no_raft_world).1 = Returned (Jsonify data)
      ∧ data !! "morning" = Some entry
      ∧ percent_full entry = 0%Q
      ∧ (0 ≤ slot_occupancy (db Samples.no_raft_world) "morning" →
         available entry = 0).
Proof.
  assert (H1 : rafts_per_slot (settings_model Samples.no_raft_world) = Some 0)
    by reflexivity.
  assert (H2 : capacity (settings_model Samples.no_raft_world) = Some 6)
    by reflexivity.
  assert (H3 : "morning"
               ∈ default [] (time_slots (settings_model Samples.no_raft_world))).
  { apply list_elem_of_here. }
  assert (H4 : 0 * 6 ≤ 0) by lia.
  exact (conj H1 (conj H2 (conj H3 (conj H4
           (AvailabilityFacts.availability_without_capacity
              AllocationLogic.load_settings Samples.no_raft_world 0 6
              "morning" H1 H2 H3 H4))))).
Defined.

End SampleRuns.
